(** * Intel DMT MCP server ([app.py]): a shallow embedding and its properties

    The program is a single Python module.  It obtains a bearer token once,
    keeps it in the module-level variable [token], and exposes three tools
    ([get_devices], [get_power_state], [do_power_action]) that each perform
    one HTTP call through a dispatcher ([make_dmt_get_request],
    [make_dmt_post_request]) and turn the decoded JSON answer into text.

    Python values are modelled by the inductive type [pyval], Python
    exceptions by the result type [outcome], and the module state together
    with the remote server by the record [world], threaded through a small
    state-and-exception monad [M]. *)

From Stdlib Require Import ZArith String Ascii List Bool Lia DecimalString.
From Stdlib Require Import Floats.SpecFloat DecimalZ.
Import ListNotations.

Local Open Scope list_scope.
Local Open Scope string_scope.
Set Warnings "-register-all".

(** ** Python values *)

(** What [response.json()] can produce, which is also everything the module
    ever stores or passes around: [None], booleans, integers, floats,
    strings, lists and string-keyed dictionaries.  A dictionary is kept as
    the list of its items in insertion order, each key once. *)
Inductive pyval : Type :=
| PyNone
| PyBool (b : bool)
| PyInt (n : Z)
| PyFloat (f : spec_float)
| PyStr (s : string)
| PyList (items : list pyval)
| PyDict (entries : list (string * pyval)).

(** The exceptions that occur on the paths of the module: those of the
    interpreter, and those of [httpx] for a failed connection, a timeout, an
    error status and a body that is not JSON.  Every one of them is a
    subclass of [Exception], so [except Exception] catches them all. *)
Inductive exn : Type :=
| KeyError (key : string)
| TypeError
| AttributeError
| JSONDecodeError
| ConnectError
| ReadTimeout
| HTTPStatusError (status : Z).

Inductive outcome (A : Type) : Type :=
| Return (a : A)
| Raise (e : exn).
Arguments Return {A} a.
Arguments Raise {A} e.

Definition obind {A B} (c : outcome A) (k : A -> outcome B) : outcome B :=
  match c with
  | Return a => k a
  | Raise e => Raise e
  end.

(** The two formatting built-ins that are not spelled out here: [repr] of a
    float (shortest round-trip digits) and [repr] of a string (quote choice
    and escapes).  They are an interface of the Python runtime. *)
Class PyBuiltins : Type := {
  float_repr : spec_float -> string;
  str_repr : string -> string
}.

Definition LF : string := String "010"%char EmptyString.

(** [str(n)] for an integer. *)
Definition str_of_int (n : Z) : string := NilZero.string_of_int (Z.to_int n).

Section Formatting.
Context `{PyBuiltins}.

Fixpoint py_repr (v : pyval) : string :=
  match v with
  | PyNone => "None"
  | PyBool true => "True"
  | PyBool false => "False"
  | PyInt n => str_of_int n
  | PyFloat f => float_repr f
  | PyStr s => str_repr s
  | PyList items => "[" ++ String.concat ", " (map py_repr items) ++ "]"
  | PyDict entries =>
      "{" ++ String.concat ", "
               (map (fun '(k, x) => str_repr k ++ ": " ++ py_repr x) entries)
          ++ "}"
  end.

(** What a replacement field [{v}] of an f-string expands to:
    [format(v, "")], that is [str(v)]. *)
Definition py_str (v : pyval) : string :=
  match v with
  | PyStr s => s
  | _ => py_repr v
  end.
End Formatting.

(** [bool(v)], as used by [not data]. *)
Definition truthy (v : pyval) : bool :=
  match v with
  | PyNone => false
  | PyBool b => b
  | PyInt n => negb (n =? 0)%Z
  | PyFloat (S754_zero _) => false
  | PyFloat _ => true
  | PyStr EmptyString => false
  | PyStr _ => true
  | PyList [] => false
  | PyList _ => true
  | PyDict [] => false
  | PyDict _ => true
  end.

Definition isinstance_list (v : pyval) : bool :=
  match v with
  | PyList _ => true
  | _ => false
  end.

(** [len(v)]; the module only ever evaluates it on a list. *)
Definition len (v : pyval) : outcome Z :=
  match v with
  | PyList items => Return (Z.of_nat (length items))
  | PyStr s => Return (Z.of_nat (String.length s))
  | PyDict entries => Return (Z.of_nat (length entries))
  | _ => Raise TypeError
  end.

Definition dict_lookup (key : string) (entries : list (string * pyval))
  : option pyval :=
  match find (fun kv => String.eqb (fst kv) key) entries with
  | Some kv => Some (snd kv)
  | None => None
  end.

(** [v[key]] for a string key. *)
Definition getitem (v : pyval) (key : string) : outcome pyval :=
  match v with
  | PyDict entries =>
      match dict_lookup key entries with
      | Some x => Return x
      | None => Raise (KeyError key)
      end
  | _ => Raise TypeError
  end.

(** [v.get(key)]: only dictionaries have the method. *)
Definition get_method (v : pyval) (key : string) : outcome pyval :=
  match v with
  | PyDict entries =>
      match dict_lookup key entries with
      | Some x => Return x
      | None => Return PyNone
      end
  | _ => Raise AttributeError
  end.

Definition is_None (v : pyval) : bool :=
  match v with
  | PyNone => true
  | _ => false
  end.

(** The items a [for] loop visits: the elements of a list, the keys of a
    dictionary, the characters of a string (here one per byte; the module
    never gets past the first of them); anything else is not iterable. *)
Definition iter (v : pyval) : outcome (list pyval) :=
  match v with
  | PyList items => Return items
  | PyDict entries => Return (map (fun kv => PyStr (fst kv)) entries)
  | PyStr s =>
      Return (map (fun c => PyStr (String c EmptyString)) (list_ascii_of_string s))
  | _ => Raise TypeError
  end.

(** A float compared with an integer: Python compares the exact values. *)
Definition float_eq_int (f : spec_float) (n : Z) : bool :=
  match f with
  | S754_zero _ => (n =? 0)%Z
  | S754_finite s m e =>
      let v := if s then Z.neg m else Z.pos m in
      if (0 <=? e)%Z then (v * 2 ^ e =? n)%Z else (v =? n * 2 ^ (- e))%Z
  | _ => false
  end.

(** [v == n] for an integer literal [n]. *)
Definition py_eq_int (v : pyval) (n : Z) : bool :=
  match v with
  | PyInt m => (m =? n)%Z
  | PyBool b => ((if b then 1 else 0) =? n)%Z
  | PyFloat f => float_eq_int f n
  | _ => false
  end.

Definition py_ne_int (v : pyval) (n : Z) : bool := negb (py_eq_int v n).

(** ** HTTP exchange and module state *)

Inductive http_method : Type := GET | POST.

(** One call of [client.get] or [client.post] as the remote side sees it. *)
Record request : Type := mkRequest {
  req_method : http_method;
  req_url : string;
  req_json : option pyval;
  req_headers : list (string * string);
  req_timeout : Z
}.

(** An [httpx] response: its status code and what [response.json()] gives,
    [None] when the body does not decode and the call raises. *)
Record response : Type := mkResponse {
  status_code : Z;
  json_result : option pyval
}.

(** The module's globals ([DMT_username], [DMT_password], [token]) and its
    surroundings: [remote] answers a request, given the requests sent before
    it, either with a response or by failing in transport (connection error,
    timeout); [sent] is the log of the requests made so far. *)
Record world : Type := mkWorld {
  DMT_username : pyval;
  DMT_password : pyval;
  token : pyval;
  remote : list request -> request -> outcome response;
  sent : list request
}.

Definition set_token (v : pyval) (w : world) : world :=
  mkWorld (DMT_username w) (DMT_password w) v (remote w) (sent w).

Definition log_request (r : request) (w : world) : world :=
  mkWorld (DMT_username w) (DMT_password w) (token w) (remote w)
          (sent w ++ [r])%list.

(** Computations of the module: they read and write the [world] and end by
    returning a value or raising. *)
Definition M (A : Type) : Type := world -> outcome A * world.

Definition ret {A} (a : A) : M A := fun w => (Return a, w).

Definition raise {A} (e : exn) : M A := fun w => (Raise e, w).

Definition bind {A B} (c : M A) (k : A -> M B) : M B :=
  fun w =>
    match c w with
    | (Return a, w') => k a w'
    | (Raise e, w') => (Raise e, w')
    end.

Definition lift {A} (c : outcome A) : M A := fun w => (c, w).

(** [try: body  except Exception: handler]. *)
Definition try_except {A} (body : M A) (handler : exn -> M A) : M A :=
  fun w =>
    match body w with
    | (Return a, w') => (Return a, w')
    | (Raise e, w') => handler e w'
    end.

Declare Scope py_scope.
Delimit Scope py_scope with py.
Notation "x <- c ;; k" := (bind c (fun x => k))
  (at level 61, c at next level, right associativity) : py_scope.
Notation "c ;;; k" := (bind c (fun _ => k))
  (at level 61, right associativity) : py_scope.
Local Open Scope py_scope.

(** Reading a module-level variable. *)
Definition read_global (var : world -> pyval) : M pyval :=
  fun w => (Return (var w), w).

Definition write_token (v : pyval) : M unit := fun w => (Return tt, set_token v w).

Definition send (r : request) : M response :=
  fun w => (remote w (sent w) r, log_request r w).

Definition client_get (url : string) (headers : list (string * string))
           (timeout : Z) : M response :=
  send (mkRequest GET url None headers timeout).

Definition client_post (url : string) (json : pyval)
           (headers : list (string * string)) (timeout : Z) : M response :=
  send (mkRequest POST url (Some json) headers timeout).

(** [response.is_success]: the status is 2xx. *)
Definition is_success (code : Z) : bool := ((200 <=? code) && (code <=? 299))%Z.

(** [response.raise_for_status()]: raises unless the response is a success. *)
Definition raise_for_status (resp : response) : M unit :=
  if is_success (status_code resp) then ret tt
  else raise (HTTPStatusError (status_code resp)).

(** [response.json()]. *)
Definition response_json (resp : response) : M pyval :=
  match json_result resp with
  | Some v => ret v
  | None => raise JSONDecodeError
  end.

(** ** The module *)

Definition DMT_API_BASE : string := "http://localhost:8181/api/v1".
Definition USER_AGENT : string := "DMT-app/1.0".

Section App.
Context `{PyBuiltins}.

Definition get_token (username password : pyval) : M pyval :=
  let url := DMT_API_BASE ++ "/authorize" in
  let payload := PyDict [("username", username); ("password", password)] in
  let headers := [("User-Agent", USER_AGENT); ("Accept", "application/json")] in
  try_except
    (response <- client_post url payload headers 30 ;;
     raise_for_status response ;;;
     data <- response_json response ;;
     lift (getitem data "token"))
    (fun _ => ret PyNone).

Definition authorize : M unit :=
  username <- read_global DMT_username ;;
  password <- read_global DMT_password ;;
  t <- get_token username password ;;
  write_token t.

Definition make_dmt_get_request (url : string) : M pyval :=
  tok <- read_global token ;;
  let headers := [("User-Agent", USER_AGENT);
                  ("Accept", "application/json");
                  ("Authorization", "Bearer " ++ py_str tok)] in
  try_except
    (response <- client_get url headers 30 ;;
     raise_for_status response ;;;
     response_json response)
    (fun _ => ret PyNone).

Definition make_dmt_post_request (url : string) (json : pyval) : M pyval :=
  tok <- read_global token ;;
  let headers := [("User-Agent", USER_AGENT);
                  ("Accept", "application/json");
                  ("Authorization", "Bearer " ++ py_str tok)] in
  try_except
    (response <- client_post url json headers 30 ;;
     raise_for_status response ;;;
     response_json response)
    (fun _ => ret PyNone).

(** The f-string of the loop body of [get_devices]; the four subscripts
    are evaluated left to right. *)
Definition format_device (item : pyval) : outcome string :=
  obind (getitem item "connectionStatus") (fun cs =>
  obind (getitem item "hostname") (fun hn =>
  obind (getitem item "guid") (fun g =>
  obind (getitem item "friendlyName") (fun fn =>
  Return (LF ++ "Connection Status: " ++ py_str cs ++ LF
             ++ "Hostname: " ++ py_str hn ++ LF
             ++ "GUID: " ++ py_str g ++ LF
             ++ "Friendly Name: " ++ py_str fn ++ LF))))).

(** [for item in data: ...; devices.append(device)], with [devices] the
    list built so far. *)
Fixpoint devices_loop (items : list pyval) (devices : list string)
  : outcome (list string) :=
  match items with
  | [] => Return devices
  | item :: rest =>
      obind (format_device item) (fun device =>
      devices_loop rest (devices ++ [device])%list)
  end.

Definition get_devices (status : Z) : M string :=
  let url := DMT_API_BASE ++ "/devices?status=" ++ str_of_int status in
  data <- make_dmt_get_request url ;;
  if negb (truthy data) then ret "Unable to fetch devices."
  else
    small <- lift (if isinstance_list data
                   then obind (len data) (fun n => Return (n <? 1)%Z)
                   else Return false) ;;
    if (small : bool) then ret "No device."
    else
      items <- lift (iter data) ;;
      devices <- lift (devices_loop items []) ;;
      ret (String.concat (LF ++ "---" ++ LF) devices).

(** The [match] statement of [get_power_state]: literal patterns compare
    the subject with [==], first match wins. *)
Definition match_powerstate (subject : pyval) : string :=
  if py_eq_int subject 2 then "On"
  else if py_eq_int subject 3 then "Sleep - Light"
  else if py_eq_int subject 4 then "Sleep - Deep"
  else if py_eq_int subject 6 then "Off - Hard"
  else if py_eq_int subject 7 then "Hibernate (Off - Soft)"
  else if py_eq_int subject 8 then "Off - Soft"
  else if py_eq_int subject 9 then "Power Cycle (Off-Hard)"
  else if py_eq_int subject 13 then "Off - Hard Graceful"
  else "Unknown".

Definition get_power_state (guid : string) : M string :=
  let url := DMT_API_BASE ++ "/amt/power/state/" ++ guid in
  data <- make_dmt_get_request url ;;
  if negb (truthy data) then ret "Unable to get power state of device."
  else
    subject <- lift (getitem data "powerstate") ;;
    let state := match_powerstate subject in
    ret ("Power State: " ++ state).

Definition do_power_action (guid : string) (action : Z) (useSOL : string)
  : M string :=
  let url := DMT_API_BASE ++ "/amt/power/action/" ++ guid in
  let payload := PyDict [("action", PyInt action); ("useSOL", PyStr useSOL)] in
  data <- make_dmt_post_request url payload ;;
  unable <- lift (if negb (truthy data) then Return true
                  else obind (get_method data "ReturnValue")
                             (fun v => Return (is_None v))) ;;
  if (unable : bool) then ret "Unable to perform power action on the device."
  else
    rv <- lift (getitem data "ReturnValue") ;;
    if py_ne_int rv 0 then ret "Failed to perform power action."
    else ret "Success to perform power action.".
End App.

(** The tools called without their optional argument: [status] defaults to
    1 and [useSOL] to the string ["false"]. *)
Definition get_devices_default `{PyBuiltins} : M string := get_devices 1.

Definition do_power_action_default `{PyBuiltins} (guid : string) (action : Z)
  : M string :=
  do_power_action guid action "false".

(** ** Reference definitions used by the statements *)

(** The header dictionary both dispatchers build, for a held credential
    [tok]. *)
Definition dmt_headers `{PyBuiltins} (tok : pyval) : list (string * string) :=
  [("User-Agent", "DMT-app/1.0");
   ("Accept", "application/json");
   ("Authorization", "Bearer " ++ py_str tok)].

Definition get_request `{PyBuiltins} (tok : pyval) (url : string) : request :=
  mkRequest GET url None (dmt_headers tok) 30.

Definition post_request `{PyBuiltins} (tok : pyval) (url : string) (json : pyval)
  : request :=
  mkRequest POST url (Some json) (dmt_headers tok) 30.

(** The dispatcher contract in the words of the specification: the parsed
    body on a 2xx answer, absence on a transport failure, on any other
    status and on a body that does not decode. *)
Definition expected_dispatch (answer : outcome response) : pyval :=
  match answer with
  | Raise _ => PyNone
  | Return resp =>
      if is_success (status_code resp)
      then match json_result resp with
           | Some body => body
           | None => PyNone
           end
      else PyNone
  end.

(** A run of a dispatcher agrees with the contract for the answer the remote
    gave, and leaves the credential as it was. *)
Definition uniform_dispatch (run : outcome pyval * world)
           (answer : outcome response) (w : world) : Prop :=
  token (snd run) = token w /\
  match answer with
  | Raise _ => fst run = Return PyNone
  | Return resp =>
      if is_success (status_code resp)
      then match json_result resp with
           | Some body => fst run = Return body
           | None => fst run = Return PyNone
           end
      else fst run = Return PyNone
  end.

(** The single request [get_token] makes. *)
Definition authorize_request (username password : pyval) : request :=
  mkRequest POST "http://localhost:8181/api/v1/authorize"
            (Some (PyDict [("username", username); ("password", password)]))
            [("User-Agent", "DMT-app/1.0"); ("Accept", "application/json")]
            30.

(** What [get_token] makes of the remote's answer. *)
Definition expected_token (answer : outcome response) : pyval :=
  match answer with
  | Raise _ => PyNone
  | Return resp =>
      if is_success (status_code resp)
      then match json_result resp with
           | Some (PyDict entries) =>
               match dict_lookup "token" entries with
               | Some t => t
               | None => PyNone
               end
           | _ => PyNone
           end
      else PyNone
  end.

(** The power-state vocabulary as the specification tabulates it. *)
Definition power_state_table : list (Z * string) :=
  [(2, "On"); (3, "Sleep - Light"); (4, "Sleep - Deep"); (6, "Off - Hard");
   (7, "Hibernate (Off - Soft)"); (8, "Off - Soft");
   (9, "Power Cycle (Off-Hard)"); (13, "Off - Hard Graceful")]%Z.

Definition power_state_label (code : Z) : string :=
  match find (fun row => (fst row =? code)%Z) power_state_table with
  | Some row => snd row
  | None => "Unknown"
  end.

Definition power_state_url (guid : string) : string :=
  "http://localhost:8181/api/v1/amt/power/state/" ++ guid.

Definition power_action_url (guid : string) : string :=
  "http://localhost:8181/api/v1/amt/power/action/" ++ guid.

Definition devices_url (status : Z) : string :=
  "http://localhost:8181/api/v1/devices?status=" ++ str_of_int status.

Definition power_action_payload (action : Z) (useSOL : string) : pyval :=
  PyDict [("action", PyInt action); ("useSOL", PyStr useSOL)].

Definition device_fields : list string :=
  ["connectionStatus"; "hostname"; "guid"; "friendlyName"].

(** A device object: a JSON object that has the four documented fields. *)
Definition is_device_object (item : pyval) : bool :=
  match item with
  | PyDict entries =>
      forallb (fun key => match dict_lookup key entries with
                          | Some _ => true
                          | None => false
                          end) device_fields
  | _ => false
  end.

Definition field_text `{PyBuiltins} (item : pyval) (key : string) : string :=
  match item with
  | PyDict entries =>
      match dict_lookup key entries with
      | Some v => py_str v
      | None => ""
      end
  | _ => ""
  end.

(** The block the specification describes for one device: connection
    status, hostname, GUID and friendly name, one per line. *)
Definition device_block `{PyBuiltins} (item : pyval) : string :=
  LF ++ "Connection Status: " ++ field_text item "connectionStatus" ++ LF
     ++ "Hostname: " ++ field_text item "hostname" ++ LF
     ++ "GUID: " ++ field_text item "guid" ++ LF
     ++ "Friendly Name: " ++ field_text item "friendlyName" ++ LF.

Definition separator : string := LF ++ "---" ++ LF.

(** *** Vocabulary for the behaviour outside the documented answers *)

Definition is_dict (v : pyval) : bool :=
  match v with
  | PyDict _ => true
  | _ => false
  end.

(** Every label [get_power_state] can print. *)
Definition power_state_texts : list string :=
  (map snd power_state_table ++ ["Unknown"])%list.

(** Every text [do_power_action] can return. *)
Definition power_action_texts : list string :=
  ["Unable to perform power action on the device.";
   "Failed to perform power action.";
   "Success to perform power action."].

(** The remote gave nothing a dispatcher passes on: the call failed in
    transport, the status is not 2xx, or the body does not decode. *)
Definition no_result (answer : outcome response) : Prop :=
  match answer with
  | Raise _ => True
  | Return resp =>
      is_success (status_code resp) = false \/ json_result resp = None
  end.

(** What every request of the module has in common: the 30 second timeout
    and, leading the headers, the client identifier and the accepted
    content type. *)
Definition request_ok (r : request) : bool :=
  (req_timeout r =? 30)%Z
  && match req_headers r with
     | (k1, v1) :: (k2, v2) :: _ =>
         (k1 =? "User-Agent") && (v1 =? "DMT-app/1.0")
         && (k2 =? "Accept") && (v2 =? "application/json")
     | _ => false
     end.

(** The value of the [Authorization] header of a request, if it has one. *)
Definition authorization (r : request) : option string :=
  match find (fun h => fst h =? "Authorization") (req_headers r) with
  | Some h => Some (snd h)
  | None => None
  end.

(** ** Stubs for concrete runs *)

Definition stub_builtins : PyBuiltins :=
  {| float_repr := fun _ => "0.0"; str_repr := fun s => "'" ++ s ++ "'" |}.

(** A remote that gives the same [answer] to every request. *)
Definition stub_world (tok : pyval) (answer : outcome response) : world :=
  mkWorld (PyStr "admin") (PyStr "secret") tok (fun _ _ => answer) [].

Definition ok_json (body : pyval) : outcome response :=
  Return (mkResponse 200 (Some body)).

Definition lab_devices : list pyval :=
  [PyDict [("guid", PyStr "g-1"); ("hostname", PyStr "host-a");
           ("connectionStatus", PyInt 1); ("friendlyName", PyStr "lab")];
   PyDict [("connectionStatus", PyInt 0); ("hostname", PyStr "host-b");
           ("guid", PyStr "g-2"); ("friendlyName", PyStr "")]].

(** A device list whose second element lacks [friendlyName]. *)
Definition broken_devices : list pyval :=
  [PyDict [("connectionStatus", PyInt 1); ("hostname", PyStr "host-a");
           ("guid", PyStr "g-1"); ("friendlyName", PyStr "lab")];
   PyDict [("connectionStatus", PyInt 1); ("hostname", PyStr "host-c");
           ("guid", PyStr "g-3")]].

(** ** The dispatcher *)

Section Dispatcher.
Context `{PyBuiltins}.

Lemma make_dmt_get_request_run (url : string) (w : world) :
  let r := get_request (token w) url in
  make_dmt_get_request url w
  = (Return (expected_dispatch (remote w (sent w) r)), log_request r w).
Proof.
  cbv [make_dmt_get_request bind read_global try_except client_get send
       get_request dmt_headers USER_AGENT expected_dispatch].
  destruct (remote w (sent w) _) as [resp | e]; [| reflexivity].
  cbv [raise_for_status response_json ret raise].
  destruct (is_success (status_code resp)); [| reflexivity].
  destruct (json_result resp); reflexivity.
Qed.

Lemma make_dmt_post_request_run (url : string) (json : pyval) (w : world) :
  let r := post_request (token w) url json in
  make_dmt_post_request url json w
  = (Return (expected_dispatch (remote w (sent w) r)), log_request r w).
Proof.
  cbv [make_dmt_post_request bind read_global try_except client_post send
       post_request dmt_headers USER_AGENT expected_dispatch].
  destruct (remote w (sent w) _) as [resp | e]; [| reflexivity].
  cbv [raise_for_status response_json ret raise].
  destruct (is_success (status_code resp)); [| reflexivity].
  destruct (json_result resp); reflexivity.
Qed.

Lemma expected_dispatch_uniform (answer : outcome response) (w w' : world) :
  token w' = token w ->
  uniform_dispatch (Return (expected_dispatch answer), w') answer w.
Proof.
  intros Htok. split; [exact Htok |].
  destruct answer as [resp | e]; simpl; [| reflexivity].
  destruct (is_success (status_code resp)); [| reflexivity].
  destruct (json_result resp); reflexivity.
Qed.
End Dispatcher.

(** C6: for every URL and payload, [make_dmt_get_request] and
    [make_dmt_post_request] return the decoded JSON body when the remote
    answers with a 2xx status and a body that decodes; on a transport
    failure, on any other status and on a body that does not decode they
    return [None], the same value whatever the cause, and never raise; and
    the stored credential is the same after the call as before it. *)
Theorem dispatchers_body_or_absence `{PyBuiltins}
        (w : world) (url : string) (json : pyval) :
  uniform_dispatch (make_dmt_get_request url w)
                   (remote w (sent w) (get_request (token w) url)) w
  /\ uniform_dispatch (make_dmt_post_request url json w)
                      (remote w (sent w) (post_request (token w) url json)) w.
Proof.
  split.
  - rewrite make_dmt_get_request_run. now apply expected_dispatch_uniform.
  - rewrite make_dmt_post_request_run. now apply expected_dispatch_uniform.
Qed.

(** C7: every call of either dispatcher sends exactly one request, and that
    request carries exactly three headers, in this order: the fixed
    [User-Agent], [Accept: application/json], and [Authorization] with the
    value ["Bearer "] followed by the text of the credential held at the
    time of the call. *)
Theorem dispatchers_attach_headers `{PyBuiltins}
        (w : world) (url : string) (json : pyval) :
  exists rg rp : request,
    sent (snd (make_dmt_get_request url w)) = (sent w ++ [rg])%list
    /\ sent (snd (make_dmt_post_request url json w)) = (sent w ++ [rp])%list
    /\ (req_method rg, req_url rg, req_json rg) = (GET, url, None)
    /\ (req_method rp, req_url rp, req_json rp) = (POST, url, Some json)
    /\ req_headers rg = [("User-Agent", USER_AGENT);
                         ("Accept", "application/json");
                         ("Authorization", "Bearer " ++ py_str (token w))]
    /\ req_headers rp = [("User-Agent", USER_AGENT);
                         ("Accept", "application/json");
                         ("Authorization", "Bearer " ++ py_str (token w))].
Proof.
  exists (get_request (token w) url), (post_request (token w) url json).
  rewrite make_dmt_get_request_run, make_dmt_post_request_run.
  repeat split.
Qed.

(** C10: when the stored credential is [None] (the start-up authorisation
    failed), a call of either dispatcher still sends a request with an
    [Authorization] header, whose value is the literal text
    ["Bearer None"]. *)
Theorem absent_credential_sends_bearer_none `{PyBuiltins}
        (w : world) (url : string) (json : pyval) :
  token w = PyNone ->
  exists rg rp : request,
    sent (snd (make_dmt_get_request url w)) = (sent w ++ [rg])%list
    /\ sent (snd (make_dmt_post_request url json w)) = (sent w ++ [rp])%list
    /\ In ("Authorization", "Bearer None") (req_headers rg)
    /\ In ("Authorization", "Bearer None") (req_headers rp).
Proof.
  intros Hnone.
  exists (get_request (token w) url), (post_request (token w) url json).
  rewrite make_dmt_get_request_run, make_dmt_post_request_run.
  rewrite Hnone. cbn. intuition.
Qed.

(** ** Credential acquisition *)

Lemma get_token_run (username password : pyval) (w : world) :
  let r := authorize_request username password in
  get_token username password w
  = (Return (expected_token (remote w (sent w) r)), log_request r w).
Proof.
  cbv [get_token bind try_except client_post send authorize_request
       DMT_API_BASE USER_AGENT expected_token lift].
  change ("http://localhost:8181/api/v1" ++ "/authorize")
    with "http://localhost:8181/api/v1/authorize".
  destruct (remote w (sent w) _) as [resp | e]; [| reflexivity].
  cbv [raise_for_status response_json ret raise].
  destruct (is_success (status_code resp)); [| reflexivity].
  destruct (json_result resp) as [[| | | | | |entries] |]; try reflexivity.
  cbv [getitem]. destruct (dict_lookup "token" entries); reflexivity.
Qed.

Lemma authorize_run (w : world) :
  let r := authorize_request (DMT_username w) (DMT_password w) in
  authorize w
  = (Return tt,
     set_token (expected_token (remote w (sent w) r)) (log_request r w)).
Proof.
  cbv [authorize bind read_global write_token].
  rewrite get_token_run. reflexivity.
Qed.

(** C8: for every username and password, [get_token] returns [None], and
    does not raise, when the authorisation request fails in transport, when
    the answer has a non-2xx status, and when the decoded body is a
    dictionary without the key [token]; when the answer is 2xx and the body
    has the key, it returns the value stored under it.  In every case the
    call ends by returning. *)
Theorem get_token_absent_or_token (w : world) (username password : pyval) :
  let answer := remote w (sent w) (authorize_request username password) in
  let run := get_token username password w in
  (forall e, answer = Raise e -> fst run = Return PyNone)
  /\ (forall resp, answer = Return resp ->
        is_success (status_code resp) = false -> fst run = Return PyNone)
  /\ (forall resp entries, answer = Return resp ->
        is_success (status_code resp) = true ->
        json_result resp = Some (PyDict entries) ->
        dict_lookup "token" entries = None -> fst run = Return PyNone)
  /\ (forall resp entries t, answer = Return resp ->
        is_success (status_code resp) = true ->
        json_result resp = Some (PyDict entries) ->
        dict_lookup "token" entries = Some t -> fst run = Return t)
  /\ (exists v, fst run = Return v).
Proof.
  intros answer run. subst answer run. rewrite get_token_run. cbn [fst].
  repeat split.
  - intros e ->. reflexivity.
  - intros resp -> Hs. cbn. now rewrite Hs.
  - intros resp entries -> Hs Hj Hk. cbn. now rewrite Hs, Hj, Hk.
  - intros resp entries t -> Hs Hj Hk. cbn. now rewrite Hs, Hj, Hk.
  - eexists. reflexivity.
Qed.

(** Concrete runs of [get_token]: a remote that answers
    [{"token": "abc"}], one that answers 401, one that is unreachable, and
    one whose 2xx body has no [token]. *)
Lemma get_token_absent_or_token_witness :
  fst (get_token (PyStr "admin") (PyStr "secret")
         (stub_world PyNone (ok_json (PyDict [("token", PyStr "abc")]))))
  = Return (PyStr "abc")
  /\ fst (get_token (PyStr "admin") (PyStr "secret")
            (stub_world PyNone (Return (mkResponse 401 None))))
     = Return PyNone
  /\ fst (get_token (PyStr "admin") (PyStr "secret")
            (stub_world PyNone (Raise ReadTimeout)))
     = Return PyNone
  /\ fst (get_token (PyStr "admin") (PyStr "secret")
            (stub_world PyNone (ok_json (PyDict [("error", PyStr "x")]))))
     = Return PyNone.
Proof.
  split; [| split; [| split]].
  - destruct (get_token_absent_or_token
                (stub_world PyNone (ok_json (PyDict [("token", PyStr "abc")])))
                (PyStr "admin") (PyStr "secret")) as (_ & _ & _ & Hok & _).
    eapply Hok; reflexivity.
  - destruct (get_token_absent_or_token
                (stub_world PyNone (Return (mkResponse 401 None)))
                (PyStr "admin") (PyStr "secret")) as (_ & Hbad & _).
    eapply Hbad; reflexivity.
  - destruct (get_token_absent_or_token
                (stub_world PyNone (Raise ReadTimeout))
                (PyStr "admin") (PyStr "secret")) as (Hdown & _).
    eapply Hdown; reflexivity.
  - destruct (get_token_absent_or_token
                (stub_world PyNone (ok_json (PyDict [("error", PyStr "x")])))
                (PyStr "admin") (PyStr "secret")) as (_ & _ & Hmiss & _).
    eapply Hmiss; reflexivity.
Defined.

(** A start-up against an unreachable remote leaves [token] as [None]; the
    dispatchers then send ["Bearer None"]. *)
Lemma absent_credential_sends_bearer_none_witness :
  let w := snd (authorize (stub_world (PyStr "stale") (Raise ConnectError))) in
  token w = PyNone
  /\ exists rg rp : request,
      sent (snd (@make_dmt_get_request stub_builtins "u" w)) = (sent w ++ [rg])%list
      /\ sent (snd (@make_dmt_post_request stub_builtins "u" PyNone w))
         = (sent w ++ [rp])%list
      /\ In ("Authorization", "Bearer None") (req_headers rg)
      /\ In ("Authorization", "Bearer None") (req_headers rp).
Proof.
  split; [reflexivity |].
  apply (@absent_credential_sends_bearer_none stub_builtins). reflexivity.
Defined.

(** ** The tools *)

Lemma bind_Return {A B} (c : M A) (k : A -> M B) (w w' : world) (a : A) :
  c w = (Return a, w') -> bind c k w = k a w'.
Proof. intros Hc. unfold bind. now rewrite Hc. Qed.

Lemma dict_lookup_truthy (key : string) (entries : list (string * pyval)) (v : pyval) :
  dict_lookup key entries = Some v -> truthy (PyDict entries) = true.
Proof. destruct entries; [discriminate | reflexivity]. Qed.

Lemma match_powerstate_int `{PyBuiltins} (code : Z) :
  match_powerstate (PyInt code) = power_state_label code.
Proof.
  unfold match_powerstate, power_state_label, power_state_table, py_eq_int.
  cbn [find fst snd].
  rewrite !(Z.eqb_sym code).
  repeat match goal with
         | |- context [(?k =? code)%Z] => destruct (k =? code)%Z; [reflexivity |]
         end.
  reflexivity.
Qed.

(** C2: when the dispatcher hands [get_power_state] a JSON object whose
    [powerstate] is the integer [code], the tool returns
    ["Power State: "] followed by the label the table gives for [code]:
    On, Sleep - Light, Sleep - Deep, Off - Hard, Hibernate (Off - Soft),
    Off - Soft, Power Cycle (Off-Hard), Off - Hard Graceful for 2, 3, 4, 6,
    7, 8, 9, 13, and Unknown for every other integer. *)
Theorem get_power_state_labels `{PyBuiltins}
        (w w' : world) (guid : string) (entries : list (string * pyval)) (code : Z) :
  make_dmt_get_request (power_state_url guid) w = (Return (PyDict entries), w') ->
  dict_lookup "powerstate" entries = Some (PyInt code) ->
  get_power_state guid w = (Return ("Power State: " ++ power_state_label code), w').
Proof.
  intros Hdisp Hps. unfold get_power_state.
  change (DMT_API_BASE ++ "/amt/power/state/" ++ guid) with (power_state_url guid).
  rewrite (bind_Return _ _ _ _ _ Hdisp).
  rewrite (dict_lookup_truthy _ _ _ Hps). cbn [negb].
  unfold bind, lift, getitem, ret. rewrite Hps.
  now rewrite match_powerstate_int.
Qed.

(** The example of the specification: a stub answering [{"powerstate": 8}]
    to [get_power_state("abc-123")]. *)
Lemma get_power_state_labels_witness :
  @get_power_state stub_builtins "abc-123"
     (stub_world (PyStr "t") (ok_json (PyDict [("powerstate", PyInt 8)])))
  = (Return "Power State: Off - Soft",
     log_request (@get_request stub_builtins (PyStr "t") (power_state_url "abc-123"))
       (stub_world (PyStr "t") (ok_json (PyDict [("powerstate", PyInt 8)])))).
Proof.
  apply (@get_power_state_labels stub_builtins _ _ "abc-123"
           [("powerstate", PyInt 8)] 8%Z); reflexivity.
Defined.

(** C3: for every guid, action and [useSOL], with [data] what the dispatcher
    returned: [do_power_action] returns the fixed "unable to perform" text
    when [data] is [None] and when [data] is an object without
    [ReturnValue]; the fixed success text when [ReturnValue] is the integer
    0; the fixed failure text when [ReturnValue] is any other integer. *)
Theorem do_power_action_messages `{PyBuiltins}
        (w w' : world) (guid : string) (action : Z) (useSOL : string) (data : pyval) :
  make_dmt_post_request (power_action_url guid)
                        (power_action_payload action useSOL) w
  = (Return data, w') ->
  (data = PyNone ->
   do_power_action guid action useSOL w
   = (Return "Unable to perform power action on the device.", w'))
  /\ (forall entries, data = PyDict entries ->
        dict_lookup "ReturnValue" entries = None ->
        do_power_action guid action useSOL w
        = (Return "Unable to perform power action on the device.", w'))
  /\ (forall entries, data = PyDict entries ->
        dict_lookup "ReturnValue" entries = Some (PyInt 0) ->
        do_power_action guid action useSOL w
        = (Return "Success to perform power action.", w'))
  /\ (forall entries rv, data = PyDict entries ->
        dict_lookup "ReturnValue" entries = Some (PyInt rv) -> rv <> 0%Z ->
        do_power_action guid action useSOL w
        = (Return "Failed to perform power action.", w')).
Proof.
  intros Hdisp. unfold do_power_action.
  change (DMT_API_BASE ++ "/amt/power/action/" ++ guid) with (power_action_url guid).
  fold (power_action_payload action useSOL).
  rewrite (bind_Return _ _ _ _ _ Hdisp). clear Hdisp.
  split; [| split; [| split]].
  - intros ->. reflexivity.
  - intros entries -> Hrv. destruct entries as [| kv rest]; [reflexivity |].
    cbn [truthy negb]. unfold bind, lift, get_method, obind. now rewrite Hrv.
  - intros entries -> Hrv. rewrite (dict_lookup_truthy _ _ _ Hrv).
    cbn [negb]. unfold bind, lift, get_method, getitem, obind. now rewrite Hrv.
  - intros entries rv -> Hrv Hnz. rewrite (dict_lookup_truthy _ _ _ Hrv).
    cbn [negb]. unfold bind, lift, get_method, getitem, obind. rewrite Hrv.
    cbn [is_None]. unfold py_ne_int, py_eq_int.
    destruct (Z.eqb_spec rv 0); [contradiction | reflexivity].
Qed.

(** Runs against stubs answering [{"ReturnValue": 0}], [{"ReturnValue": 5}],
    [{"Body": "x"}], and an unreachable remote. *)
Lemma do_power_action_messages_witness :
  fst (@do_power_action stub_builtins "abc-123" 10 "false"
         (stub_world (PyStr "t") (ok_json (PyDict [("ReturnValue", PyInt 0)]))))
  = Return "Success to perform power action."
  /\ fst (@do_power_action stub_builtins "abc-123" 10 "false"
            (stub_world (PyStr "t") (ok_json (PyDict [("ReturnValue", PyInt 5)]))))
     = Return "Failed to perform power action."
  /\ fst (@do_power_action stub_builtins "abc-123" 10 "false"
            (stub_world (PyStr "t") (ok_json (PyDict [("Body", PyStr "x")]))))
     = Return "Unable to perform power action on the device."
  /\ fst (@do_power_action stub_builtins "abc-123" 10 "false"
            (stub_world (PyStr "t") (Raise ConnectError)))
     = Return "Unable to perform power action on the device.".
Proof.
  split; [| split; [| split]].
  - destruct (@do_power_action_messages stub_builtins
                (stub_world (PyStr "t") (ok_json (PyDict [("ReturnValue", PyInt 0)])))
                _ "abc-123" 10%Z "false" _ eq_refl) as (_ & _ & Hok & _).
    now rewrite (Hok _ eq_refl eq_refl).
  - destruct (@do_power_action_messages stub_builtins
                (stub_world (PyStr "t") (ok_json (PyDict [("ReturnValue", PyInt 5)])))
                _ "abc-123" 10%Z "false" _ eq_refl) as (_ & _ & _ & Hfail).
    rewrite (Hfail _ 5%Z eq_refl eq_refl); [reflexivity | discriminate].
  - destruct (@do_power_action_messages stub_builtins
                (stub_world (PyStr "t") (ok_json (PyDict [("Body", PyStr "x")])))
                _ "abc-123" 10%Z "false" _ eq_refl) as (_ & Hmiss & _).
    now rewrite (Hmiss _ eq_refl eq_refl).
  - destruct (@do_power_action_messages stub_builtins
                (stub_world (PyStr "t") (Raise ConnectError))
                _ "abc-123" 10%Z "false" _ eq_refl) as (Hnone & _).
    now rewrite (Hnone eq_refl).
Defined.

(** *** Listing devices *)

Section Devices.
Context `{PyBuiltins}.

Lemma format_device_block (item : pyval) :
  is_device_object item = true ->
  format_device item = Return (device_block item).
Proof.
  destruct item as [| | | | | | entries]; try discriminate.
  unfold is_device_object, device_fields. cbn [forallb].
  unfold format_device, device_block, field_text, getitem.
  destruct (dict_lookup "connectionStatus" entries); [| discriminate].
  destruct (dict_lookup "hostname" entries); [| discriminate].
  destruct (dict_lookup "guid" entries); [| discriminate].
  destruct (dict_lookup "friendlyName" entries); [| discriminate].
  reflexivity.
Qed.

(** The loop appends one block per item, in the order of the items. *)
Lemma devices_loop_blocks (items : list pyval) :
  forallb is_device_object items = true ->
  forall devices,
    devices_loop items devices
    = Return (devices ++ map device_block items)%list.
Proof.
  induction items as [| item rest IH]; intros Hall devices.
  - cbn. now rewrite app_nil_r.
  - cbn [forallb] in Hall. apply andb_prop in Hall as [Hitem Hrest].
    cbn [devices_loop map]. rewrite (format_device_block _ Hitem).
    cbn [obind]. rewrite (IH Hrest). now rewrite <- app_assoc.
Qed.

(** What [get_devices] does with the value the dispatcher returned. *)
Lemma get_devices_bind (status : Z) (w w' : world) (data : pyval) :
  make_dmt_get_request (devices_url status) w = (Return data, w') ->
  get_devices status w
  = (if negb (truthy data) then ret "Unable to fetch devices."
     else
       bind (lift (if isinstance_list data
                   then obind (len data) (fun n => Return (n <? 1)%Z)
                   else Return false))
            (fun small : bool =>
               if small then ret "No device."
               else
                 bind (lift (iter data)) (fun items =>
                 bind (lift (devices_loop items [])) (fun devices =>
                 ret (String.concat (LF ++ "---" ++ LF) devices))))) w'.
Proof.
  intros Hdisp. unfold get_devices.
  change (DMT_API_BASE ++ "/devices?status=" ++ str_of_int status)
    with (devices_url status).
  now rewrite (bind_Return _ _ _ _ _ Hdisp).
Qed.
End Devices.

(** C5: when the dispatcher hands [get_devices] an array of N >= 1 device
    objects, the tool returns the blocks of the devices (connection status,
    hostname, GUID, friendly name), one per device and in the order of the
    array, joined by the separator line; there are exactly N of them. *)
Theorem get_devices_blocks `{PyBuiltins}
        (w w' : world) (status : Z) (items : list pyval) :
  make_dmt_get_request (devices_url status) w = (Return (PyList items), w') ->
  items <> [] ->
  forallb is_device_object items = true ->
  get_devices status w
  = (Return (String.concat separator (map device_block items)), w')
  /\ length (map device_block items) = length items.
Proof.
  intros Hdisp Hne Hall. split; [| apply length_map].
  rewrite (get_devices_bind _ _ _ _ Hdisp).
  destruct items as [| item rest]; [contradiction |].
  cbn [truthy negb isinstance_list len obind].
  assert (Hlen : (Z.of_nat (length (item :: rest)) <? 1)%Z = false).
  { apply Z.ltb_ge. cbn [length]. lia. }
  unfold bind at 1. unfold lift at 1. rewrite Hlen.
  unfold bind, lift, iter, ret.
  rewrite (devices_loop_blocks _ Hall). reflexivity.
Qed.

(** Two devices, listed in the order received. *)
Lemma get_devices_blocks_witness :
  fst (@get_devices stub_builtins 1
         (stub_world (PyStr "t") (ok_json (PyList lab_devices))))
  = Return (LF ++ "Connection Status: 1" ++ LF ++ "Hostname: host-a" ++ LF
               ++ "GUID: g-1" ++ LF ++ "Friendly Name: lab" ++ LF
               ++ LF ++ "---" ++ LF
               ++ LF ++ "Connection Status: 0" ++ LF ++ "Hostname: host-b" ++ LF
               ++ "GUID: g-2" ++ LF ++ "Friendly Name: " ++ LF).
Proof.
  destruct (@get_devices_blocks stub_builtins
              (stub_world (PyStr "t") (ok_json (PyList lab_devices)))
              _ 1%Z lab_devices eq_refl) as [Hrun _].
  - discriminate.
  - reflexivity.
  - now rewrite Hrun.
Defined.

(** *** Requests made by the tools *)

Ltac case_tail :=
  repeat match goal with
         | |- context [match ?x with _ => _ end] => destruct x
         end;
  reflexivity.

Lemma do_power_action_world `{PyBuiltins}
      (w : world) (guid : string) (action : Z) (useSOL : string) :
  snd (do_power_action guid action useSOL w)
  = log_request (post_request (token w) (power_action_url guid)
                              (power_action_payload action useSOL)) w.
Proof.
  unfold do_power_action.
  change (DMT_API_BASE ++ "/amt/power/action/" ++ guid) with (power_action_url guid).
  rewrite (bind_Return _ _ _ _ _ (make_dmt_post_request_run _ _ w)).
  generalize (expected_dispatch
                (remote w (sent w)
                   (post_request (token w) (power_action_url guid)
                      (PyDict [("action", PyInt action); ("useSOL", PyStr useSOL)])))).
  intros data. unfold power_action_payload.
  generalize (log_request
                (post_request (token w) (power_action_url guid)
                   (PyDict [("action", PyInt action); ("useSOL", PyStr useSOL)])) w).
  intros w1. unfold bind, lift, ret, obind. case_tail.
Qed.

(** C9: for every guid, action code and [useSOL] string, [do_power_action]
    makes exactly one request, a POST to the power-action URL of the guid
    whose JSON payload is the object with [action] bound to the given
    integer and [useSOL] bound to the given string, unchanged; this holds
    for every integer, so no action code is rejected or rewritten. *)
Theorem do_power_action_forwards_payload `{PyBuiltins}
        (w : world) (guid : string) (action : Z) (useSOL : string) :
  exists r : request,
    sent (snd (do_power_action guid action useSOL w)) = (sent w ++ [r])%list
    /\ req_method r = POST
    /\ req_url r = "http://localhost:8181/api/v1/amt/power/action/" ++ guid
    /\ req_json r = Some (PyDict [("action", PyInt action);
                                  ("useSOL", PyStr useSOL)]).
Proof.
  eexists. rewrite do_power_action_world. cbn. repeat split.
Qed.

(** *** Answers the tools do not handle *)

Section Unhandled.
Context `{PyBuiltins}.

Lemma format_device_missing (entries : list (string * pyval)) :
  dict_lookup "connectionStatus" entries = None ->
  format_device (PyDict entries) = Raise (KeyError "connectionStatus").
Proof. intros Hcs. unfold format_device, getitem. now rewrite Hcs. Qed.

Lemma format_device_starts_with_LF (item : pyval) (device : string) :
  format_device item = Return device ->
  exists rest, device = String "010"%char rest.
Proof.
  unfold format_device.
  destruct (getitem item "connectionStatus"); [| discriminate].
  destruct (getitem item "hostname"); [| discriminate].
  destruct (getitem item "guid"); [| discriminate].
  destruct (getitem item "friendlyName"); [| discriminate].
  cbn. intros [= <-]. eexists. reflexivity.
Qed.

(** The loop only extends the list it was given. *)
Lemma devices_loop_extends (items : list pyval) :
  forall devices result,
    devices_loop items devices = Return result ->
    exists blocks, result = (devices ++ blocks)%list
                   /\ length blocks = length items.
Proof.
  induction items as [| item rest IH]; intros devices result Hloop.
  - cbn in Hloop. injection Hloop as <-. exists []. now rewrite app_nil_r.
  - cbn [devices_loop] in Hloop.
    destruct (format_device item) as [device |]; [| discriminate].
    cbn [obind] in Hloop. apply IH in Hloop as (blocks & -> & Hlen).
    exists (device :: blocks). rewrite <- app_assoc. cbn. now rewrite Hlen.
Qed.

Lemma devices_loop_first (item : pyval) (rest : list pyval) (result : list string) :
  devices_loop (item :: rest) [] = Return result ->
  exists tail more, result = String "010"%char tail :: more.
Proof.
  cbn [devices_loop]. destruct (format_device item) as [device |] eqn:Hfmt;
    [| discriminate].
  cbn [obind]. intros Hloop.
  apply format_device_starts_with_LF in Hfmt as [tail ->].
  apply devices_loop_extends in Hloop as (blocks & -> & _).
  now exists tail, blocks.
Qed.

Lemma concat_starts_with (sep : string) (c : ascii) (tail : string)
      (more : list string) :
  exists rest, String.concat sep (String c tail :: more) = String c rest.
Proof. destruct more; cbn; eexists; reflexivity. Qed.
End Unhandled.

(** C1, as the code has it: the tools do raise on some 2xx answers.  A
    non-empty object without [powerstate] makes [get_power_state] raise
    [KeyError]; an array whose first element is an object without
    [connectionStatus] makes [get_devices] raise [KeyError]; a non-empty
    array makes [do_power_action] raise [AttributeError]. *)
Theorem tools_raise_on_malformed_body `{PyBuiltins}
        (w : world) (guid : string) (status action : Z) (useSOL : string) :
  (forall w' entries,
      make_dmt_get_request (power_state_url guid) w = (Return (PyDict entries), w') ->
      entries <> [] ->
      dict_lookup "powerstate" entries = None ->
      get_power_state guid w = (Raise (KeyError "powerstate"), w'))
  /\ (forall w' entries rest,
        make_dmt_get_request (devices_url status) w
        = (Return (PyList (PyDict entries :: rest)), w') ->
        dict_lookup "connectionStatus" entries = None ->
        get_devices status w = (Raise (KeyError "connectionStatus"), w'))
  /\ (forall w' item rest,
        make_dmt_post_request (power_action_url guid)
                              (power_action_payload action useSOL) w
        = (Return (PyList (item :: rest)), w') ->
        do_power_action guid action useSOL w = (Raise AttributeError, w')).
Proof.
  split; [| split].
  - intros w' entries Hdisp Hne Hps. unfold get_power_state.
    change (DMT_API_BASE ++ "/amt/power/state/" ++ guid) with (power_state_url guid).
    rewrite (bind_Return _ _ _ _ _ Hdisp).
    destruct entries as [| kv more]; [contradiction |].
    cbn [truthy negb]. unfold bind, lift, getitem. now rewrite Hps.
  - intros w' entries rest Hdisp Hcs.
    rewrite (get_devices_bind _ _ _ _ Hdisp).
    cbn [truthy negb isinstance_list len obind].
    assert (Hlen : (Z.of_nat (length (PyDict entries :: rest)) <? 1)%Z = false).
    { apply Z.ltb_ge. cbn [length]. lia. }
    unfold bind at 1. unfold lift at 1. rewrite Hlen.
    unfold bind, lift, iter. cbn [devices_loop].
    now rewrite (format_device_missing _ Hcs).
  - intros w' item rest Hdisp. unfold do_power_action.
    change (DMT_API_BASE ++ "/amt/power/action/" ++ guid) with (power_action_url guid).
    fold (power_action_payload action useSOL).
    now rewrite (bind_Return _ _ _ _ _ Hdisp).
Qed.

(** The three runs: [{"error": "x"}] for the power state, [[{"guid": "g"}]]
    for the device list, [["busy"]] for the power action. *)
Lemma tools_raise_on_malformed_body_witness :
  fst (@get_power_state stub_builtins "abc-123"
         (stub_world (PyStr "t") (ok_json (PyDict [("error", PyStr "x")]))))
  = Raise (KeyError "powerstate")
  /\ fst (@get_devices stub_builtins 1
            (stub_world (PyStr "t")
               (ok_json (PyList [PyDict [("guid", PyStr "g")]]))))
     = Raise (KeyError "connectionStatus")
  /\ fst (@do_power_action stub_builtins "abc-123" 10 "false"
            (stub_world (PyStr "t") (ok_json (PyList [PyStr "busy"]))))
     = Raise AttributeError.
Proof.
  split; [| split].
  - destruct (@tools_raise_on_malformed_body stub_builtins
                (stub_world (PyStr "t") (ok_json (PyDict [("error", PyStr "x")])))
                "abc-123" 1%Z 10%Z "false") as (Hps & _).
    rewrite (Hps _ _ eq_refl); [reflexivity | discriminate | reflexivity].
  - destruct (@tools_raise_on_malformed_body stub_builtins
                (stub_world (PyStr "t")
                   (ok_json (PyList [PyDict [("guid", PyStr "g")]])))
                "abc-123" 1%Z 10%Z "false") as (_ & Hdev & _).
    rewrite (Hdev _ _ _ eq_refl); reflexivity.
  - destruct (@tools_raise_on_malformed_body stub_builtins
                (stub_world (PyStr "t") (ok_json (PyList [PyStr "busy"])))
                "abc-123" 1%Z 10%Z "false") as (_ & _ & Hact).
    rewrite (Hact _ _ _ eq_refl); reflexivity.
Defined.

(** C4, as the code has it: an empty array is falsy, so the first test of
    [get_devices] already answers with the "unable to fetch" text, the same
    text as for a dispatcher that returned [None]; the "no device" text is
    not produced. *)
Theorem get_devices_empty_array_unable `{PyBuiltins}
        (w w' : world) (status : Z) (data : pyval) :
  make_dmt_get_request (devices_url status) w = (Return data, w') ->
  data = PyList [] \/ data = PyNone ->
  get_devices status w = (Return "Unable to fetch devices.", w').
Proof.
  intros Hdisp Hdata. rewrite (get_devices_bind _ _ _ _ Hdisp).
  destruct Hdata as [-> | ->]; reflexivity.
Qed.

Lemma get_devices_empty_array_unable_witness :
  fst (@get_devices stub_builtins 1 (stub_world (PyStr "t") (ok_json (PyList []))))
  = Return "Unable to fetch devices."
  /\ fst (@get_devices stub_builtins 1 (stub_world (PyStr "t") (Raise ConnectError)))
     = Return "Unable to fetch devices.".
Proof.
  split.
  - rewrite (@get_devices_empty_array_unable stub_builtins
               (stub_world (PyStr "t") (ok_json (PyList []))) _ 1%Z _ eq_refl);
      [reflexivity | now left].
  - rewrite (@get_devices_empty_array_unable stub_builtins
               (stub_world (PyStr "t") (Raise ConnectError)) _ 1%Z _ eq_refl);
      [reflexivity | now right].
Defined.

(** The "no device" branch of [get_devices] is never taken: whatever the
    remote answers, the tool does not return that text. *)
Lemma get_devices_never_no_device `{PyBuiltins} (w : world) (status : Z) :
  fst (get_devices status w) <> Return "No device.".
Proof.
  rewrite (get_devices_bind _ _ _ _ (make_dmt_get_request_run _ w)).
  generalize (expected_dispatch
                (remote w (sent w) (get_request (token w) (devices_url status)))).
  generalize (log_request (get_request (token w) (devices_url status)) w).
  intros w1 data.
  destruct data as [| [|] | n | f | s | items | entries]; try (cbn; discriminate).
  - cbn [truthy]. destruct (n =? 0)%Z; cbn; discriminate.
  - destruct f; cbn; discriminate.
  - destruct s as [| c s]; [cbn; discriminate |].
    cbn [truthy negb isinstance_list]. unfold bind, lift, iter, ret.
    cbn. discriminate.
  - destruct items as [| item rest]; [cbn; discriminate |].
    cbn [truthy negb isinstance_list len obind].
    assert (Hlen : (Z.of_nat (length (item :: rest)) <? 1)%Z = false).
    { apply Z.ltb_ge. cbn [length]. lia. }
    unfold bind at 1. unfold lift at 1. rewrite Hlen.
    unfold bind, lift, iter, ret.
    destruct (devices_loop (item :: rest) []) as [devices |] eqn:Hloop;
      [| cbn; discriminate].
    apply devices_loop_first in Hloop as (tail & more & ->).
    destruct (concat_starts_with (LF ++ "---" ++ LF) "010"%char tail more)
      as [rest' ->].
    cbn. discriminate.
  - destruct entries as [| [k v] rest]; [cbn; discriminate |].
    cbn [truthy negb isinstance_list]. unfold bind, lift, iter, ret.
    cbn. discriminate.
Qed.


(** *** Degraded service *)

(** When the dispatcher returned [None] (the remote was unreachable, timed
    out, refused the credential, or sent a body that is not JSON), each tool
    returns its own fixed failure text. *)
Lemma tools_degrade_on_absence `{PyBuiltins}
      (w w' : world) (guid : string) (status action : Z) (useSOL : string) :
  (make_dmt_get_request (devices_url status) w = (Return PyNone, w') ->
   get_devices status w = (Return "Unable to fetch devices.", w'))
  /\ (make_dmt_get_request (power_state_url guid) w = (Return PyNone, w') ->
      get_power_state guid w = (Return "Unable to get power state of device.", w'))
  /\ (make_dmt_post_request (power_action_url guid)
                            (power_action_payload action useSOL) w
      = (Return PyNone, w') ->
      do_power_action guid action useSOL w
      = (Return "Unable to perform power action on the device.", w')).
Proof.
  split; [| split]; intros Hdisp.
  - now rewrite (get_devices_bind _ _ _ _ Hdisp).
  - unfold get_power_state.
    change (DMT_API_BASE ++ "/amt/power/state/" ++ guid) with (power_state_url guid).
    now rewrite (bind_Return _ _ _ _ _ Hdisp).
  - unfold do_power_action.
    change (DMT_API_BASE ++ "/amt/power/action/" ++ guid) with (power_action_url guid).
    fold (power_action_payload action useSOL).
    now rewrite (bind_Return _ _ _ _ _ Hdisp).
Qed.

(** A JSON [null] under [ReturnValue] reads as [None] and is taken for a
    missing field. *)
Lemma do_power_action_null_return_value `{PyBuiltins}
      (w w' : world) (guid : string) (action : Z) (useSOL : string)
      (entries : list (string * pyval)) :
  make_dmt_post_request (power_action_url guid)
                        (power_action_payload action useSOL) w
  = (Return (PyDict entries), w') ->
  dict_lookup "ReturnValue" entries = Some PyNone ->
  do_power_action guid action useSOL w
  = (Return "Unable to perform power action on the device.", w').
Proof.
  intros Hdisp Hrv. unfold do_power_action.
  change (DMT_API_BASE ++ "/amt/power/action/" ++ guid) with (power_action_url guid).
  fold (power_action_payload action useSOL).
  rewrite (bind_Return _ _ _ _ _ Hdisp).
  rewrite (dict_lookup_truthy _ _ _ Hrv). cbn [negb].
  unfold bind, lift, get_method, obind. now rewrite Hrv.
Qed.


(** ** Further properties of the module *)

(** *** Start-up *)

(** [get_token] makes exactly one request: a POST to the authorisation URL
    whose JSON body holds the username and the password, with the client
    identifier and the accepted content type as its only headers; no
    [Authorization] header is sent, whatever credential is held, and the held
    credential is not changed. *)
Theorem get_token_sends_credentials_only (w : world) (username password : pyval) :
  exists r : request,
    sent (snd (get_token username password w)) = (sent w ++ [r])%list
    /\ r = mkRequest POST "http://localhost:8181/api/v1/authorize"
             (Some (PyDict [("username", username); ("password", password)]))
             [("User-Agent", "DMT-app/1.0"); ("Accept", "application/json")] 30
    /\ authorization r = None
    /\ token (snd (get_token username password w)) = token w.
Proof.
  exists (authorize_request username password).
  rewrite get_token_run. repeat split.
Qed.

(** [authorize] never raises and always assigns [token]: the value under
    [token] of a 2xx object body, and [None] when the request fails in
    transport or is answered with another status, so that a credential held
    before is dropped.  It sends the credentials of the module and leaves
    them, and the remote, as they were. *)
Theorem authorize_outcome (w : world) :
  let r := authorize_request (DMT_username w) (DMT_password w) in
  let answer := remote w (sent w) r in
  let w' := snd (authorize w) in
  fst (authorize w) = Return tt
  /\ sent w' = (sent w ++ [r])%list
  /\ (DMT_username w', DMT_password w') = (DMT_username w, DMT_password w)
  /\ (forall e, answer = Raise e -> token w' = PyNone)
  /\ (forall resp, answer = Return resp ->
        is_success (status_code resp) = false -> token w' = PyNone)
  /\ (forall resp entries t, answer = Return resp ->
        is_success (status_code resp) = true ->
        json_result resp = Some (PyDict entries) ->
        dict_lookup "token" entries = Some t -> token w' = t).
Proof.
  intros r answer w'. subst r answer w'. rewrite authorize_run. cbn.
  repeat split.
  - intros e ->. reflexivity.
  - intros resp -> Hs. cbn. now rewrite Hs.
  - intros resp entries t -> Hs Hj Hk. cbn. now rewrite Hs, Hj, Hk.
Qed.

(** A stale credential is dropped by a start-up that times out, and
    replaced by one that succeeds. *)
Lemma authorize_outcome_witness :
  token (snd (authorize (stub_world (PyStr "stale") (Raise ReadTimeout)))) = PyNone
  /\ token (snd (authorize (stub_world (PyStr "stale")
                              (Return (mkResponse 401 None))))) = PyNone
  /\ token (snd (authorize (stub_world (PyStr "stale")
                              (ok_json (PyDict [("token", PyStr "abc")])))))
     = PyStr "abc".
Proof.
  split; [| split].
  - destruct (authorize_outcome (stub_world (PyStr "stale") (Raise ReadTimeout)))
      as (_ & _ & _ & Hdown & _).
    exact (Hdown _ eq_refl).
  - destruct (authorize_outcome
                (stub_world (PyStr "stale") (Return (mkResponse 401 None))))
      as (_ & _ & _ & _ & Hbad & _).
    exact (Hbad _ eq_refl eq_refl).
  - destruct (authorize_outcome
                (stub_world (PyStr "stale")
                   (ok_json (PyDict [("token", PyStr "abc")]))))
      as (_ & _ & _ & _ & _ & Hok).
    exact (Hok _ _ _ eq_refl eq_refl eq_refl eq_refl).
Defined.

(** A 2xx answer whose body does not decode, or decodes to anything but an
    object ([null], a boolean, a number, a string, an array), gives no
    credential: the failed subscript is caught like any other error. *)
Theorem get_token_non_object_body (w : world) (username password : pyval)
        (resp : response) :
  remote w (sent w) (authorize_request username password) = Return resp ->
  is_success (status_code resp) = true ->
  (forall body, json_result resp = Some body -> is_dict body = false) ->
  fst (get_token username password w) = Return PyNone.
Proof.
  intros Hans Hs Hbody. rewrite get_token_run. cbn. rewrite Hans. cbn.
  rewrite Hs. destruct (json_result resp) as [body |]; [| reflexivity].
  specialize (Hbody body eq_refl). destruct body; try reflexivity; discriminate.
Qed.

Lemma get_token_non_object_body_witness :
  fst (get_token (PyStr "admin") (PyStr "secret")
         (stub_world PyNone (ok_json (PyList [PyStr "token"]))))
  = Return PyNone
  /\ fst (get_token (PyStr "admin") (PyStr "secret")
            (stub_world PyNone (Return (mkResponse 204 None))))
     = Return PyNone.
Proof.
  split.
  - apply (get_token_non_object_body _ _ _ (mkResponse 200 (Some (PyList [PyStr "token"]))));
      [reflexivity | reflexivity |].
    intros body [= <-]. reflexivity.
  - apply (get_token_non_object_body _ _ _ (mkResponse 204 None));
      [reflexivity | reflexivity |].
    intros body [=].
Defined.

(** *** One request per tool call *)

Lemma get_devices_world `{PyBuiltins} (w : world) (status : Z) :
  snd (get_devices status w)
  = log_request (get_request (token w) (devices_url status)) w.
Proof.
  rewrite (get_devices_bind _ _ _ _ (make_dmt_get_request_run _ w)).
  generalize (expected_dispatch
                (remote w (sent w) (get_request (token w) (devices_url status)))).
  generalize (log_request (get_request (token w) (devices_url status)) w).
  intros w1 data. unfold bind, lift, ret, obind. case_tail.
Qed.

Lemma get_power_state_world `{PyBuiltins} (w : world) (guid : string) :
  snd (get_power_state guid w)
  = log_request (get_request (token w) (power_state_url guid)) w.
Proof.
  unfold get_power_state.
  change (DMT_API_BASE ++ "/amt/power/state/" ++ guid) with (power_state_url guid).
  rewrite (bind_Return _ _ _ _ _ (make_dmt_get_request_run _ w)).
  generalize (expected_dispatch
                (remote w (sent w) (get_request (token w) (power_state_url guid)))).
  generalize (log_request (get_request (token w) (power_state_url guid)) w).
  intros w1 data. unfold bind, lift, ret. case_tail.
Qed.

(** Each call of [get_devices] and of [get_power_state] sends exactly one
    request, whether the tool then returns or raises: a GET without body to
    the devices URL with the status in decimal in the query string, and to
    the power-state URL of the guid.  No tool changes the held credential;
    there is no retry and no new authorisation. *)
Theorem tools_send_one_request `{PyBuiltins}
        (w : world) (guid : string) (status action : Z) (useSOL : string) :
  sent (snd (get_devices status w))
  = (sent w ++ [mkRequest GET ("http://localhost:8181/api/v1/devices?status="
                                 ++ str_of_int status)
                          None (dmt_headers (token w)) 30])%list
  /\ sent (snd (get_power_state guid w))
     = (sent w ++ [mkRequest GET ("http://localhost:8181/api/v1/amt/power/state/"
                                    ++ guid)
                             None (dmt_headers (token w)) 30])%list
  /\ token (snd (get_devices status w)) = token w
  /\ token (snd (get_power_state guid w)) = token w
  /\ token (snd (do_power_action guid action useSOL w)) = token w.
Proof.
  rewrite get_devices_world, get_power_state_world, do_power_action_world.
  repeat split.
Qed.


(** The module's start-up followed by a dispatcher call: when the
    authorisation is answered with a 2xx object whose [token] is the string
    [t], the call that follows carries [Authorization: Bearer t], and the
    authorisation request itself carried no such header. *)
Theorem startup_then_call_presents_token `{PyBuiltins}
        (w : world) (url : string) (resp : response)
        (entries : list (string * pyval)) (t : string) :
  remote w (sent w) (authorize_request (DMT_username w) (DMT_password w))
  = Return resp ->
  is_success (status_code resp) = true ->
  json_result resp = Some (PyDict entries) ->
  dict_lookup "token" entries = Some (PyStr t) ->
  exists r1 r2 : request,
    sent (snd (bind authorize (fun _ => make_dmt_get_request url) w))
    = (sent w ++ [r1; r2])%list
    /\ authorization r1 = None
    /\ (req_method r2, req_url r2) = (GET, url)
    /\ authorization r2 = Some ("Bearer " ++ t).
Proof.
  intros Hans Hs Hj Hk.
  rewrite (bind_Return _ _ _ _ _ (authorize_run w)).
  rewrite make_dmt_get_request_run.
  do 2 eexists. cbn [snd sent log_request set_token token expected_token].
  rewrite Hans. cbn [expected_token]. rewrite Hs, Hj, Hk.
  rewrite <- app_assoc. cbn [app]. repeat split.
Qed.

Lemma startup_then_call_presents_token_witness :
  exists r1 r2 : request,
    sent (snd (bind authorize (fun _ => @make_dmt_get_request stub_builtins "u")
                 (stub_world PyNone (ok_json (PyDict [("token", PyStr "abc")])))))
    = [r1; r2]
    /\ authorization r1 = None
    /\ (req_method r2, req_url r2) = (GET, "u")
    /\ authorization r2 = Some "Bearer abc".
Proof.
  exact (@startup_then_call_presents_token stub_builtins
           (stub_world PyNone (ok_json (PyDict [("token", PyStr "abc")])))
           "u" _ _ "abc" eq_refl eq_refl eq_refl eq_refl).
Defined.

(** *** Answers outside the documented shapes *)

Section Answers.
Context `{PyBuiltins}.

Lemma get_power_state_bind (guid : string) (w w' : world) (data : pyval) :
  make_dmt_get_request (power_state_url guid) w = (Return data, w') ->
  get_power_state guid w
  = (if negb (truthy data) then ret "Unable to get power state of device."
     else bind (lift (getitem data "powerstate"))
               (fun subject => ret ("Power State: " ++ match_powerstate subject))) w'.
Proof.
  intros Hdisp. unfold get_power_state.
  change (DMT_API_BASE ++ "/amt/power/state/" ++ guid) with (power_state_url guid).
  now rewrite (bind_Return _ _ _ _ _ Hdisp).
Qed.

Lemma do_power_action_bind (guid : string) (action : Z) (useSOL : string)
      (w w' : world) (data : pyval) :
  make_dmt_post_request (power_action_url guid)
                        (power_action_payload action useSOL) w
  = (Return data, w') ->
  do_power_action guid action useSOL w
  = bind (lift (if negb (truthy data) then Return true
                else obind (get_method data "ReturnValue")
                           (fun v => Return (is_None v))))
         (fun unable : bool =>
            if unable then ret "Unable to perform power action on the device."
            else bind (lift (getitem data "ReturnValue"))
                      (fun rv => if py_ne_int rv 0
                                 then ret "Failed to perform power action."
                                 else ret "Success to perform power action.")) w'.
Proof.
  intros Hdisp. unfold do_power_action.
  change (DMT_API_BASE ++ "/amt/power/action/" ++ guid) with (power_action_url guid).
  fold (power_action_payload action useSOL).
  now rewrite (bind_Return _ _ _ _ _ Hdisp).
Qed.

Lemma truthy_non_dict_no_get (data : pyval) :
  truthy data = true -> is_dict data = false ->
  get_method data "ReturnValue" = Raise AttributeError
  /\ getitem data "powerstate" = Raise TypeError.
Proof. destruct data; intros Ht Hd; try discriminate; now split. Qed.

(** A truthy value that is not a list makes the loop of [get_devices] fail
    with [TypeError]: a number or [True] cannot be iterated, and the keys of
    an object and the characters of a string cannot be subscripted with a
    field name. *)
Lemma non_list_loop_fails (data : pyval) :
  truthy data = true -> isinstance_list data = false ->
  obind (iter data) (fun items => devices_loop items []) = Raise TypeError.
Proof.
  destruct data as [| b | n | f | s | items | entries]; intros Ht Hl;
    try discriminate; try reflexivity.
  - destruct s; [discriminate | reflexivity].
  - destruct entries as [| [k v] rest]; [discriminate | reflexivity].
Qed.

(** The loop fails as soon as one element is not a device object, with
    [TypeError] for an element that is not an object and [KeyError] for the
    first field an object lacks. *)
Lemma devices_loop_fails (items : list pyval) :
  forallb is_device_object items = false ->
  forall devices,
  exists e, devices_loop items devices = Raise e
            /\ (e = TypeError \/ exists key, In key device_fields /\ e = KeyError key).
Proof.
  induction items as [| item rest IH]; intros Hbad devices; [discriminate |].
  cbn [forallb] in Hbad. cbn [devices_loop].
  destruct (is_device_object item) eqn:Hitem.
  - rewrite (format_device_block _ Hitem). cbn [obind]. now apply IH.
  - clear IH Hbad. destruct item as [| | | | | | entries];
      try (exists TypeError; split; [reflexivity | now left]).
    unfold is_device_object, device_fields in Hitem. cbn [forallb] in Hitem.
    unfold format_device, getitem.
    destruct (dict_lookup "connectionStatus" entries);
      [| eexists; split; [reflexivity | right; eexists; split; [| reflexivity]; cbn; tauto]].
    destruct (dict_lookup "hostname" entries);
      [| eexists; split; [reflexivity | right; eexists; split; [| reflexivity]; cbn; tauto]].
    destruct (dict_lookup "guid" entries);
      [| eexists; split; [reflexivity | right; eexists; split; [| reflexivity]; cbn; tauto]].
    destruct (dict_lookup "friendlyName" entries);
      [discriminate
      | eexists; split; [reflexivity | right; eexists; split; [| reflexivity]; cbn; tauto]].
Qed.
End Answers.

(** A 2xx answer whose body is falsy in Python ([null], [false], [0], an
    empty string, an empty array, an empty object) is reported by every tool
    with its failure text, exactly like a call that got no answer. *)
Theorem falsy_answer_reported_as_failure `{PyBuiltins}
        (w : world) (guid : string) (status action : Z) (useSOL : string) :
  (forall w' data,
      make_dmt_get_request (devices_url status) w = (Return data, w') ->
      truthy data = false ->
      get_devices status w = (Return "Unable to fetch devices.", w'))
  /\ (forall w' data,
        make_dmt_get_request (power_state_url guid) w = (Return data, w') ->
        truthy data = false ->
        get_power_state guid w
        = (Return "Unable to get power state of device.", w'))
  /\ (forall w' data,
        make_dmt_post_request (power_action_url guid)
                              (power_action_payload action useSOL) w
        = (Return data, w') ->
        truthy data = false ->
        do_power_action guid action useSOL w
        = (Return "Unable to perform power action on the device.", w')).
Proof.
  split; [| split]; intros w' data Hdisp Hfalsy.
  - rewrite (get_devices_bind _ _ _ _ Hdisp). now rewrite Hfalsy.
  - rewrite (get_power_state_bind _ _ _ _ Hdisp). now rewrite Hfalsy.
  - rewrite (do_power_action_bind _ _ _ _ _ _ Hdisp). now rewrite Hfalsy.
Qed.

(** Runs against a remote answering 200 with [{}], with [0] and with
    [""]. *)
Lemma falsy_answer_reported_as_failure_witness :
  fst (@get_devices stub_builtins 0 (stub_world (PyStr "t") (ok_json (PyDict []))))
  = Return "Unable to fetch devices."
  /\ fst (@get_power_state stub_builtins "abc-123"
            (stub_world (PyStr "t") (ok_json (PyInt 0))))
     = Return "Unable to get power state of device."
  /\ fst (@do_power_action stub_builtins "abc-123" 8 "true"
            (stub_world (PyStr "t") (ok_json (PyStr ""))))
     = Return "Unable to perform power action on the device.".
Proof.
  split; [| split].
  - destruct (@falsy_answer_reported_as_failure stub_builtins
                (stub_world (PyStr "t") (ok_json (PyDict [])))
                "abc-123" 0%Z 8%Z "true") as (Hdev & _).
    now rewrite (Hdev _ _ eq_refl eq_refl).
  - destruct (@falsy_answer_reported_as_failure stub_builtins
                (stub_world (PyStr "t") (ok_json (PyInt 0)))
                "abc-123" 0%Z 8%Z "true") as (_ & Hps & _).
    now rewrite (Hps _ _ eq_refl eq_refl).
  - destruct (@falsy_answer_reported_as_failure stub_builtins
                (stub_world (PyStr "t") (ok_json (PyStr "")))
                "abc-123" 0%Z 8%Z "true") as (_ & _ & Hact).
    now rewrite (Hact _ _ eq_refl eq_refl).
Defined.

(** A truthy answer of the wrong JSON type makes the tool raise instead of
    returning text: [get_devices] raises [TypeError] on anything that is not
    an array (an object, a string, a number, [true]); [get_power_state]
    raises [TypeError] and [do_power_action] raises [AttributeError] on
    anything that is not an object. *)
Theorem wrong_type_answer_raises `{PyBuiltins}
        (w : world) (guid : string) (status action : Z) (useSOL : string) :
  (forall w' data,
      make_dmt_get_request (devices_url status) w = (Return data, w') ->
      truthy data = true -> isinstance_list data = false ->
      get_devices status w = (Raise TypeError, w'))
  /\ (forall w' data,
        make_dmt_get_request (power_state_url guid) w = (Return data, w') ->
        truthy data = true -> is_dict data = false ->
        get_power_state guid w = (Raise TypeError, w'))
  /\ (forall w' data,
        make_dmt_post_request (power_action_url guid)
                              (power_action_payload action useSOL) w
        = (Return data, w') ->
        truthy data = true -> is_dict data = false ->
        do_power_action guid action useSOL w = (Raise AttributeError, w')).
Proof.
  split; [| split]; intros w' data Hdisp Ht Htype.
  - rewrite (get_devices_bind _ _ _ _ Hdisp). rewrite Ht, Htype. cbn [negb].
    unfold bind at 1. unfold lift at 1.
    pose proof (non_list_loop_fails data Ht Htype) as Hloop.
    unfold bind, lift. destruct (iter data) as [items | e]; cbn [obind] in Hloop.
    + now rewrite Hloop.
    + now injection Hloop as ->.
  - rewrite (get_power_state_bind _ _ _ _ Hdisp). rewrite Ht. cbn [negb].
    unfold bind, lift. now rewrite (proj2 (truthy_non_dict_no_get _ Ht Htype)).
  - rewrite (do_power_action_bind _ _ _ _ _ _ Hdisp). rewrite Ht. cbn [negb].
    unfold bind, lift. now rewrite (proj1 (truthy_non_dict_no_get _ Ht Htype)).
Qed.

(** Runs against a remote answering 200 with an error object for the
    device list, with an array for the power state, and with a string for
    the power action. *)
Lemma wrong_type_answer_raises_witness :
  fst (@get_devices stub_builtins 1
         (stub_world (PyStr "t") (ok_json (PyDict [("error", PyStr "denied")]))))
  = Raise TypeError
  /\ fst (@get_power_state stub_builtins "abc-123"
            (stub_world (PyStr "t") (ok_json (PyList [PyInt 2]))))
     = Raise TypeError
  /\ fst (@do_power_action stub_builtins "abc-123" 8 "true"
            (stub_world (PyStr "t") (ok_json (PyStr "ok"))))
     = Raise AttributeError.
Proof.
  split; [| split].
  - destruct (@wrong_type_answer_raises stub_builtins
                (stub_world (PyStr "t") (ok_json (PyDict [("error", PyStr "denied")])))
                "abc-123" 1%Z 8%Z "true") as (Hdev & _).
    now rewrite (Hdev _ _ eq_refl eq_refl eq_refl).
  - destruct (@wrong_type_answer_raises stub_builtins
                (stub_world (PyStr "t") (ok_json (PyList [PyInt 2])))
                "abc-123" 1%Z 8%Z "true") as (_ & Hps & _).
    now rewrite (Hps _ _ eq_refl eq_refl eq_refl).
  - destruct (@wrong_type_answer_raises stub_builtins
                (stub_world (PyStr "t") (ok_json (PyStr "ok")))
                "abc-123" 1%Z 8%Z "true") as (_ & _ & Hact).
    now rewrite (Hact _ _ eq_refl eq_refl eq_refl).
Defined.

(** [get_devices] is all or nothing: when one element of the array is not a
    device object the tool raises, and returns no text for the devices
    before it.  The exception is [TypeError] for an element that is not an
    object and [KeyError] naming a device field otherwise. *)
Theorem get_devices_bad_element_raises `{PyBuiltins}
        (w w' : world) (status : Z) (items : list pyval) :
  make_dmt_get_request (devices_url status) w = (Return (PyList items), w') ->
  forallb is_device_object items = false ->
  exists e, get_devices status w = (Raise e, w')
            /\ (e = TypeError \/ exists key, In key device_fields /\ e = KeyError key).
Proof.
  intros Hdisp Hbad. rewrite (get_devices_bind _ _ _ _ Hdisp).
  destruct items as [| item rest]; [discriminate |].
  cbn [truthy negb isinstance_list len obind].
  assert (Hlen : (Z.of_nat (length (item :: rest)) <? 1)%Z = false).
  { apply Z.ltb_ge. cbn [length]. lia. }
  unfold bind at 1. unfold lift at 1. rewrite Hlen.
  destruct (devices_loop_fails _ Hbad []) as (e & Hloop & He).
  exists e. split; [| exact He].
  unfold bind, lift, iter. now rewrite Hloop.
Qed.

(** A good device followed by one without [friendlyName]. *)
Lemma get_devices_bad_element_raises_witness :
  exists e,
    @get_devices stub_builtins 1
       (stub_world (PyStr "t") (ok_json (PyList broken_devices)))
    = (Raise e,
       log_request (@get_request stub_builtins (PyStr "t") (devices_url 1))
         (stub_world (PyStr "t") (ok_json (PyList broken_devices))))
    /\ (e = TypeError \/ exists key, In key device_fields /\ e = KeyError key).
Proof.
  apply (@get_devices_bad_element_raises stub_builtins _ _ 1%Z broken_devices);
    reflexivity.
Defined.

(** *** Power state answers *)

Lemma float_eq_int_unique (f : spec_float) (code : Z) :
  float_eq_int f code = true ->
  forall n, float_eq_int f n = (code =? n)%Z.
Proof.
  destruct f as [s | s | | s m e]; cbn [float_eq_int]; try discriminate.
  - intros Hc n. apply Z.eqb_eq in Hc. subst code. apply Z.eqb_sym.
  - set (v := if s then Z.neg m else Z.pos m). clearbody v.
    destruct (0 <=? e)%Z eqn:He; intros Hc n; apply Z.eqb_eq in Hc.
    + now rewrite Hc.
    + apply Z.leb_gt in He. subst v.
      assert (Hpos : (0 < 2 ^ (- e))%Z) by (apply Z.pow_pos_nonneg; lia).
      destruct (Z.eqb_spec (code * 2 ^ (- e)) (n * 2 ^ (- e))) as [Heq | Hne];
        destruct (Z.eqb_spec code n) as [Hcn | Hcn]; try reflexivity.
      * apply Z.mul_reg_r in Heq; [contradiction | lia].
      * subst n. contradiction.
Qed.

Lemma match_powerstate_float `{PyBuiltins} (f : spec_float) (code : Z) :
  float_eq_int f code = true ->
  match_powerstate (PyFloat f) = power_state_label code.
Proof.
  intros Hf. rewrite <- match_powerstate_int.
  unfold match_powerstate, py_eq_int.
  now rewrite !(float_eq_int_unique _ _ Hf).
Qed.

Lemma match_powerstate_in_texts `{PyBuiltins} (subject : pyval) :
  In (match_powerstate subject) power_state_texts.
Proof.
  unfold match_powerstate.
  repeat match goal with
         | |- context [if ?b then _ else _] => destruct b; [cbn; tauto |]
         end.
  cbn; tauto.
Qed.

(** Once the answer is an object with a [powerstate] key, whatever is
    stored under it, [get_power_state] returns ["Power State: "] followed by
    one of the nine labels; it does not raise. *)
Theorem get_power_state_any_powerstate `{PyBuiltins}
        (w w' : world) (guid : string) (entries : list (string * pyval))
        (subject : pyval) :
  make_dmt_get_request (power_state_url guid) w = (Return (PyDict entries), w') ->
  dict_lookup "powerstate" entries = Some subject ->
  exists label,
    In label power_state_texts
    /\ get_power_state guid w = (Return ("Power State: " ++ label), w').
Proof.
  intros Hdisp Hps. exists (match_powerstate subject).
  split; [apply match_powerstate_in_texts |].
  rewrite (get_power_state_bind _ _ _ _ Hdisp).
  rewrite (dict_lookup_truthy _ _ _ Hps). cbn [negb].
  unfold bind, lift, getitem, ret. now rewrite Hps.
Qed.

Lemma get_power_state_any_powerstate_witness :
  exists label,
    In label power_state_texts
    /\ @get_power_state stub_builtins "abc-123"
         (stub_world (PyStr "t")
            (ok_json (PyDict [("powerstate", PyList [PyInt 2])])))
       = (Return ("Power State: " ++ label),
          log_request (@get_request stub_builtins (PyStr "t")
                         (power_state_url "abc-123"))
            (stub_world (PyStr "t")
               (ok_json (PyDict [("powerstate", PyList [PyInt 2])])))).
Proof.
  apply (@get_power_state_any_powerstate stub_builtins _ _ "abc-123"
           [("powerstate", PyList [PyInt 2])] (PyList [PyInt 2]));
    reflexivity.
Defined.

(** The [match] compares with [==]: a [powerstate] sent as a float whose
    value is exactly the integer [code] gets the label the table gives for
    [code]: 2.0 is On, 5.0 is Unknown. *)
Theorem get_power_state_integral_float `{PyBuiltins}
        (w w' : world) (guid : string) (entries : list (string * pyval))
        (f : spec_float) (code : Z) :
  make_dmt_get_request (power_state_url guid) w = (Return (PyDict entries), w') ->
  dict_lookup "powerstate" entries = Some (PyFloat f) ->
  float_eq_int f code = true ->
  get_power_state guid w = (Return ("Power State: " ++ power_state_label code), w').
Proof.
  intros Hdisp Hps Hf.
  rewrite (get_power_state_bind _ _ _ _ Hdisp).
  rewrite (dict_lookup_truthy _ _ _ Hps). cbn [negb].
  unfold bind, lift, getitem, ret. rewrite Hps.
  now rewrite (match_powerstate_float _ _ Hf).
Qed.

(** The double 8.0, mantissa 2^52 and exponent -49, is Off - Soft. *)
Lemma get_power_state_integral_float_witness :
  fst (@get_power_state stub_builtins "abc-123"
         (stub_world (PyStr "t")
            (ok_json (PyDict [("powerstate",
                               PyFloat (S754_finite false 4503599627370496 (-49)))]))))
  = Return "Power State: Off - Soft".
Proof.
  rewrite (@get_power_state_integral_float stub_builtins
             (stub_world (PyStr "t")
                (ok_json (PyDict [("powerstate",
                                   PyFloat (S754_finite false 4503599627370496 (-49)))])))
             _ "abc-123" _ _ 8%Z eq_refl eq_refl eq_refl).
  reflexivity.
Defined.

(** A [powerstate] that is not a number ([null], a boolean, a string such
    as ["2"], an array, an object) is labelled Unknown. *)
Theorem get_power_state_non_numeric_unknown `{PyBuiltins}
        (w w' : world) (guid : string) (entries : list (string * pyval))
        (subject : pyval) :
  make_dmt_get_request (power_state_url guid) w = (Return (PyDict entries), w') ->
  dict_lookup "powerstate" entries = Some subject ->
  match subject with
  | PyInt _ | PyFloat _ => False
  | _ => True
  end ->
  get_power_state guid w = (Return "Power State: Unknown", w').
Proof.
  intros Hdisp Hps Hkind.
  rewrite (get_power_state_bind _ _ _ _ Hdisp).
  rewrite (dict_lookup_truthy _ _ _ Hps). cbn [negb].
  unfold bind, lift, getitem, ret. rewrite Hps.
  destruct subject as [| [|] | | | | |]; try contradiction; reflexivity.
Qed.

Lemma get_power_state_non_numeric_unknown_witness :
  fst (@get_power_state stub_builtins "abc-123"
         (stub_world (PyStr "t") (ok_json (PyDict [("powerstate", PyStr "2")]))))
  = Return "Power State: Unknown"
  /\ fst (@get_power_state stub_builtins "abc-123"
            (stub_world (PyStr "t") (ok_json (PyDict [("powerstate", PyBool true)]))))
     = Return "Power State: Unknown".
Proof.
  split.
  - rewrite (@get_power_state_non_numeric_unknown stub_builtins
               (stub_world (PyStr "t") (ok_json (PyDict [("powerstate", PyStr "2")])))
               _ "abc-123" _ (PyStr "2") eq_refl eq_refl I).
    reflexivity.
  - rewrite (@get_power_state_non_numeric_unknown stub_builtins
               (stub_world (PyStr "t") (ok_json (PyDict [("powerstate", PyBool true)])))
               _ "abc-123" _ (PyBool true) eq_refl eq_refl I).
    reflexivity.
Defined.

(** *** Power action answers *)

(** Whatever object the remote answers with, [do_power_action] returns one
    of its three texts; it does not raise on an object. *)
Theorem do_power_action_object_answer `{PyBuiltins}
        (w w' : world) (guid : string) (action : Z) (useSOL : string)
        (entries : list (string * pyval)) :
  make_dmt_post_request (power_action_url guid)
                        (power_action_payload action useSOL) w
  = (Return (PyDict entries), w') ->
  exists text,
    In text power_action_texts
    /\ do_power_action guid action useSOL w = (Return text, w').
Proof.
  intros Hdisp. rewrite (do_power_action_bind _ _ _ _ _ _ Hdisp).
  destruct entries as [| kv rest].
  - eexists. split; [| reflexivity]. cbn; tauto.
  - cbn [truthy negb]. unfold bind, lift, get_method, getitem, obind.
    destruct (dict_lookup "ReturnValue" (kv :: rest)) as [rv |].
    + destruct (is_None rv).
      * eexists. split; [| reflexivity]. cbn; tauto.
      * destruct (py_ne_int rv 0); eexists; (split; [| reflexivity]); cbn; tauto.
    + eexists. split; [| reflexivity]. cbn; tauto.
Qed.

Lemma do_power_action_object_answer_witness :
  exists text,
    In text power_action_texts
    /\ @do_power_action stub_builtins "abc-123" 5 "false"
         (stub_world (PyStr "t")
            (ok_json (PyDict [("Body", PyDict [("ReturnValue", PyInt 0)])])))
       = (Return text,
          log_request (@post_request stub_builtins (PyStr "t")
                         (power_action_url "abc-123")
                         (power_action_payload 5 "false"))
            (stub_world (PyStr "t")
               (ok_json (PyDict [("Body", PyDict [("ReturnValue", PyInt 0)])])))).
Proof.
  apply (@do_power_action_object_answer stub_builtins _ _ "abc-123" 5%Z "false"
           [("Body", PyDict [("ReturnValue", PyInt 0)])]).
  reflexivity.
Defined.

(** [ReturnValue] is compared with [!= 0], not checked to be an integer:
    [false] and the float zero count as success; [true], any string (also
    ["0"]), any array and any object count as failure. *)
Theorem do_power_action_loose_return_value `{PyBuiltins}
        (w w' : world) (guid : string) (action : Z) (useSOL : string)
        (entries : list (string * pyval)) (rv : pyval) :
  make_dmt_post_request (power_action_url guid)
                        (power_action_payload action useSOL) w
  = (Return (PyDict entries), w') ->
  dict_lookup "ReturnValue" entries = Some rv ->
  (match rv with
   | PyBool false | PyFloat (S754_zero _) => True
   | _ => False
   end ->
   do_power_action guid action useSOL w
   = (Return "Success to perform power action.", w'))
  /\ (match rv with
      | PyBool true | PyStr _ | PyList _ | PyDict _ => True
      | _ => False
      end ->
      do_power_action guid action useSOL w
      = (Return "Failed to perform power action.", w')).
Proof.
  intros Hdisp Hrv. rewrite (do_power_action_bind _ _ _ _ _ _ Hdisp).
  rewrite (dict_lookup_truthy _ _ _ Hrv). cbn [negb].
  unfold bind, lift, get_method, getitem, obind. rewrite Hrv.
  split; intros Hkind.
  - destruct rv as [| [|] | | [| | |] | | |]; try contradiction; reflexivity.
  - destruct rv as [| [|] | | | | |]; try contradiction; reflexivity.
Qed.

Lemma do_power_action_loose_return_value_witness :
  fst (@do_power_action stub_builtins "abc-123" 10 "false"
         (stub_world (PyStr "t") (ok_json (PyDict [("ReturnValue", PyBool false)]))))
  = Return "Success to perform power action."
  /\ fst (@do_power_action stub_builtins "abc-123" 10 "false"
            (stub_world (PyStr "t") (ok_json (PyDict [("ReturnValue", PyStr "0")]))))
     = Return "Failed to perform power action.".
Proof.
  split.
  - destruct (@do_power_action_loose_return_value stub_builtins
                (stub_world (PyStr "t")
                   (ok_json (PyDict [("ReturnValue", PyBool false)])))
                _ "abc-123" 10%Z "false" _ _ eq_refl eq_refl) as [Hok _].
    now rewrite (Hok I).
  - destruct (@do_power_action_loose_return_value stub_builtins
                (stub_world (PyStr "t")
                   (ok_json (PyDict [("ReturnValue", PyStr "0")])))
                _ "abc-123" 10%Z "false" _ _ eq_refl eq_refl) as [_ Hfail].
    now rewrite (Hfail I).
Defined.

(** A run against a remote answering [{"ReturnValue": null}]. *)
Lemma do_power_action_null_return_value_witness :
  fst (@do_power_action stub_builtins "abc-123" 10 "false"
         (stub_world (PyStr "t") (ok_json (PyDict [("ReturnValue", PyNone)]))))
  = Return "Unable to perform power action on the device.".
Proof.
  rewrite (@do_power_action_null_return_value stub_builtins
             (stub_world (PyStr "t") (ok_json (PyDict [("ReturnValue", PyNone)])))
             _ "abc-123" 10%Z "false" _ eq_refl eq_refl).
  reflexivity.
Defined.

(** *** From the remote's answer to the tool's text *)

Lemma no_result_absence (answer : outcome response) :
  no_result answer -> expected_dispatch answer = PyNone.
Proof.
  destruct answer as [resp | e]; cbn; [| reflexivity].
  intros [Hs | Hj].
  - now rewrite Hs.
  - rewrite Hj. now destruct (is_success (status_code resp)).
Qed.

(** When the remote does not answer the tool's request (connection error,
    timeout), answers it with a status outside 2xx, or with a body that is
    not JSON, the tool returns its failure text. *)
Theorem tools_report_remote_failure `{PyBuiltins}
        (w : world) (guid : string) (status action : Z) (useSOL : string) :
  (no_result (remote w (sent w) (get_request (token w) (devices_url status))) ->
   fst (get_devices status w) = Return "Unable to fetch devices.")
  /\ (no_result (remote w (sent w) (get_request (token w) (power_state_url guid))) ->
      fst (get_power_state guid w) = Return "Unable to get power state of device.")
  /\ (no_result (remote w (sent w)
                   (post_request (token w) (power_action_url guid)
                                 (power_action_payload action useSOL))) ->
      fst (do_power_action guid action useSOL w)
      = Return "Unable to perform power action on the device.").
Proof.
  split; [| split]; intros Hfail; apply no_result_absence in Hfail.
  - rewrite (get_devices_bind _ _ _ _ (make_dmt_get_request_run _ w)).
    now rewrite Hfail.
  - rewrite (get_power_state_bind _ _ _ _ (make_dmt_get_request_run _ w)).
    now rewrite Hfail.
  - rewrite (do_power_action_bind _ _ _ _ _ _ (make_dmt_post_request_run _ _ w)).
    now rewrite Hfail.
Qed.

(** A remote that times out, one that answers 401, and one that answers 200
    with a page that is not JSON. *)
Lemma tools_report_remote_failure_witness :
  fst (@get_devices stub_builtins 1 (stub_world (PyStr "t") (Raise ReadTimeout)))
  = Return "Unable to fetch devices."
  /\ fst (@get_power_state stub_builtins "abc-123"
            (stub_world PyNone (Return (mkResponse 401 (Some (PyDict []))))))
     = Return "Unable to get power state of device."
  /\ fst (@do_power_action stub_builtins "abc-123" 10 "false"
            (stub_world (PyStr "t") (Return (mkResponse 200 None))))
     = Return "Unable to perform power action on the device.".
Proof.
  split; [| split].
  - destruct (@tools_report_remote_failure stub_builtins
                (stub_world (PyStr "t") (Raise ReadTimeout))
                "abc-123" 1%Z 10%Z "false") as (Hdev & _).
    apply Hdev. exact I.
  - destruct (@tools_report_remote_failure stub_builtins
                (stub_world PyNone (Return (mkResponse 401 (Some (PyDict [])))))
                "abc-123" 1%Z 10%Z "false") as (_ & Hps & _).
    apply Hps. left. reflexivity.
  - destruct (@tools_report_remote_failure stub_builtins
                (stub_world (PyStr "t") (Return (mkResponse 200 None)))
                "abc-123" 1%Z 10%Z "false") as (_ & _ & Hact).
    apply Hact. right. reflexivity.
Defined.

(** *** What every request has in common *)

Lemma forallb_request_log (r : request) (w : world) :
  forallb request_ok (sent w) = true -> request_ok r = true ->
  forallb request_ok (sent (log_request r w)) = true.
Proof.
  intros Hlog Hr. cbn [sent log_request]. rewrite forallb_app, Hlog.
  cbn. now rewrite Hr.
Qed.

(** If every request made so far had the 30 second timeout and the
    [User-Agent] and [Accept] headers, so has every request after the
    start-up and after a call of any tool. *)
Theorem requests_stay_well_formed `{PyBuiltins}
        (w : world) (guid : string) (status action : Z) (useSOL : string) :
  forallb request_ok (sent w) = true ->
  forallb request_ok (sent (snd (authorize w))) = true
  /\ forallb request_ok (sent (snd (get_devices status w))) = true
  /\ forallb request_ok (sent (snd (get_power_state guid w))) = true
  /\ forallb request_ok (sent (snd (do_power_action guid action useSOL w))) = true.
Proof.
  intros Hlog.
  rewrite authorize_run, get_devices_world, get_power_state_world,
    do_power_action_world.
  cbn [snd]. change (sent (set_token ?t ?w0)) with (sent w0).
  repeat split; now apply forallb_request_log.
Qed.

(** The log of a start-up followed by one call of each tool. *)
Lemma requests_stay_well_formed_witness :
  forallb request_ok
    (sent (snd (@do_power_action stub_builtins "abc-123" 10 "false"
             (snd (@get_power_state stub_builtins "abc-123"
                (snd (@get_devices stub_builtins 1
                   (snd (authorize (stub_world PyNone (Raise ConnectError)))))))))))
  = true.
Proof.
  apply (@requests_stay_well_formed stub_builtins _ "abc-123" 1%Z 10%Z "false").
  apply (@requests_stay_well_formed stub_builtins _ "abc-123" 1%Z 10%Z "false").
  apply (@requests_stay_well_formed stub_builtins _ "abc-123" 1%Z 10%Z "false").
  apply (@requests_stay_well_formed stub_builtins _ "abc-123" 1%Z 10%Z "false").
  reflexivity.
Defined.

(** *** Text of a device block *)

(** The fields are printed with [str()], not as JSON: a boolean connection
    status appears as [True] or [False], a [null] hostname as [None], a
    numeric GUID in decimal, and a string without quotes. *)
Theorem get_devices_prints_python_text `{PyBuiltins}
        (w w' : world) (status : Z) (entries : list (string * pyval))
        (connected : bool) (guid : Z) (name : string) :
  make_dmt_get_request (devices_url status) w
  = (Return (PyList [PyDict entries]), w') ->
  dict_lookup "connectionStatus" entries = Some (PyBool connected) ->
  dict_lookup "hostname" entries = Some PyNone ->
  dict_lookup "guid" entries = Some (PyInt guid) ->
  dict_lookup "friendlyName" entries = Some (PyStr name) ->
  get_devices status w
  = (Return (LF ++ "Connection Status: " ++ (if connected then "True" else "False")
                ++ LF ++ "Hostname: None"
                ++ LF ++ "GUID: " ++ str_of_int guid
                ++ LF ++ "Friendly Name: " ++ name ++ LF), w').
Proof.
  intros Hdisp Hcs Hhn Hg Hfn. rewrite (get_devices_bind _ _ _ _ Hdisp).
  cbn [truthy negb isinstance_list len obind length Z.of_nat].
  unfold bind, lift, iter, ret. cbn [Z.ltb Z.compare Pos.of_succ_nat Pos.compare
                                     Pos.compare_cont devices_loop].
  unfold format_device, getitem. rewrite Hcs, Hhn, Hg, Hfn. cbn [obind].
  destruct connected; reflexivity.
Qed.

Lemma get_devices_prints_python_text_witness :
  fst (@get_devices stub_builtins 1
         (stub_world (PyStr "t")
            (ok_json (PyList [PyDict [("guid", PyInt 42);
                                      ("hostname", PyNone);
                                      ("friendlyName", PyStr "lab");
                                      ("connectionStatus", PyBool true)]]))))
  = Return (LF ++ "Connection Status: True" ++ LF ++ "Hostname: None" ++ LF
               ++ "GUID: 42" ++ LF ++ "Friendly Name: lab" ++ LF).
Proof.
  rewrite (@get_devices_prints_python_text stub_builtins
             (stub_world (PyStr "t")
                (ok_json (PyList [PyDict [("guid", PyInt 42);
                                          ("hostname", PyNone);
                                          ("friendlyName", PyStr "lab");
                                          ("connectionStatus", PyBool true)]])))
             _ 1%Z _ true 42%Z "lab" eq_refl eq_refl eq_refl eq_refl eq_refl).
  reflexivity.
Defined.

(** *** Request URLs *)

Lemma append_cancel_l (p a b : string) : p ++ a = p ++ b -> a = b.
Proof.
  induction p as [| c p IH]; cbn; [trivial |]. intros [= Hab]. now apply IH.
Qed.

Lemma to_int_not_nil (n : Z) :
  Z.to_int n <> Decimal.Pos Decimal.Nil /\ Z.to_int n <> Decimal.Neg Decimal.Nil.
Proof.
  pose proof (DecimalZ.to_of (Z.to_int n)) as Hnorm.
  rewrite DecimalZ.of_to in Hnorm.
  split; intros Hnil; rewrite Hnil in Hnorm; discriminate.
Qed.

(** The decimal text of an integer reads back as that integer. *)
Lemma str_of_int_read_back (n : Z) :
  option_map Z.of_int (NilZero.int_of_string (str_of_int n)) = Some n.
Proof.
  unfold str_of_int. destruct (to_int_not_nil n) as [Hpos Hneg].
  rewrite (NilZero.isi _ Hpos Hneg). cbn. now rewrite DecimalZ.of_to.
Qed.

(** The URLs of the tools do not collide: two status values give two
    device-list URLs, two guids give two power-state URLs and two
    power-action URLs, and no power-state URL is a power-action URL, so a
    state query cannot reach the action endpoint. *)
Theorem tool_urls_do_not_collide (s1 s2 : Z) (g1 g2 : string) :
  (devices_url s1 = devices_url s2 <-> s1 = s2)
  /\ (power_state_url g1 = power_state_url g2 <-> g1 = g2)
  /\ (power_action_url g1 = power_action_url g2 <-> g1 = g2)
  /\ power_state_url g1 <> power_action_url g2.
Proof.
  split; [| split; [| split]].
  - split; [| now intros ->]. unfold devices_url. intros Hurl.
    apply append_cancel_l in Hurl.
    pose proof (str_of_int_read_back s1) as H1.
    rewrite Hurl, str_of_int_read_back in H1. now injection H1.
  - split; [| now intros ->]. unfold power_state_url. apply append_cancel_l.
  - split; [| now intros ->]. unfold power_action_url. apply append_cancel_l.
  - unfold power_state_url, power_action_url. cbn. discriminate.
Qed.
